(** * server.py: the health-tracking backend, embedded and checked

    The handlers of [server.py] are translated one by one: Python [float]s
    are binary64 numbers, the MongoDB collections are lists of documents in
    insertion order, and every handler is a function from the store to an
    outcome (a value or a raised exception) and the store it leaves. *)

From Stdlib Require Import ZArith List String Ascii Bool Lia Floats.
Import ListNotations.

Set Warnings "-inexact-float".
#[local] Open Scope string_scope.
#[local] Open Scope list_scope.
#[local] Open Scope Z_scope.

(** ** Python runtime: exceptions and outcomes *)

Inductive exn : Type :=
| HTTPException (status_code : Z) (detail : string)
| ZeroDivisionError
| OverflowError
| TypeError
| IndexError.

Inductive result (A : Type) : Type :=
| Ok (a : A)
| Raise (e : exn).

Arguments Ok {A} a.
Arguments Raise {A} e.

(** ** Python runtime: [float]

    A Python [float] is an IEEE 754 binary64 number: the kernel's primitive
    [float]. [*] never raises; [/] raises on a zero divisor; [** 2] goes
    through [float_pow]; [round(x, n)] is the correctly rounded decimal
    rounding of CPython. *)

Module PyFloat.

(** [a / b] (float_div): a zero divisor of either sign raises. *)
Definition truediv (a b : float) : result float :=
  if (b =? 0)%float then Raise ZeroDivisionError else Ok (a / b)%float.

(** [x ** 2] (float_pow with exponent 2): nan stays nan, an infinity
    gives +inf, a zero gives +0.0, a base of absolute value 1 gives 1.0,
    and otherwise the C library is called, [pow(|x|, 2.0)]. That function
    is not part of the program and its last bit depends on the platform
    (glibc's is not correctly rounded), so it is the parameter [pow_2];
    an infinite result raises [OverflowError], an underflowing one is
    returned as it is. *)
Definition pow2 (pow_2 : float -> float) (x : float) : result float :=
  if is_nan x then Ok x
  else if is_infinity x then Ok infinity
  else if is_zero x then Ok zero
  else
    let iv := abs x in
    if (iv =? 1)%float then Ok one
    else
      let ix := pow_2 iv in
      if is_infinity ix then Raise OverflowError else Ok ix.

(** The [pow(x, 2.0)] of a correctly rounded C library: the square,
    rounded to nearest. Any library whose error is below one unit in the
    last place agrees with it wherever the square is a binary64 number. *)
Definition rounded_square (x : float) : float := (x * x)%float.

(** The integer nearest to [num / den], ties to the even one
    ([0 <= num], [0 < den]). *)
Definition round_half_even (num den : Z) : Z :=
  let q := num / den in
  let r := num mod den in
  match 2 * r ?= den with
  | Lt => q
  | Gt => q + 1
  | Eq => if Z.even q then q else q + 1
  end.

(** The binary64 number nearest to the decimal [(-1)^s * n / p]
    ([0 <= n], [0 < p]), ties to even: what [strtod] returns. *)
Definition strtod (s : bool) (n p : Z) : float :=
  match n with
  | Z0 => if s then neg_zero else zero
  | _ =>
      let '(q, e, l) := SFdiv_core_binary prec emax n 0 p 0 in
      SF2Prim (binary_round_aux prec emax s q e l)
  end.

(** [round(x, ndigits)] for [ndigits >= 0] (float.__round__): nan,
    infinities and zeros round to themselves; a finite [x], whose exact
    value is [(-1)^s * m * 2^e], is rounded to [ndigits] decimals, ties to
    even on that exact value, and the decimal is read back as the nearest
    binary64 number. *)
Definition round (x : float) (ndigits : N) : float :=
  match Prim2SF x with
  | S754_finite s m e =>
      let p := 10 ^ Z.of_N ndigits in
      let n := if 0 <=? e then Z.pos m * 2 ^ e * p
               else round_half_even (Z.pos m * p) (2 ^ (- e)) in
      strtod s n p
  | _ => x
  end.

End PyFloat.

(** ** Python runtime: [datetime]

    An aware UTC [datetime] is its calendar fields. *)

Record datetime : Type := mk_datetime {
  year : Z; month : Z; day : Z;
  hour : Z; minute : Z; second : Z; microsecond : Z
}.

Definition digit (n : Z) : ascii := ascii_of_nat (48 + Z.to_nat (n mod 10)).

Definition zfill2 (n : Z) : string :=
  String (digit (n / 10)) (String (digit n) EmptyString).

Definition zfill4 (n : Z) : string :=
  String (digit (n / 1000)) (String (digit (n / 100)) (zfill2 n)).

(** [t.strftime("%Y-%m-%d")] *)
Definition strftime_Ymd (t : datetime) : string :=
  (zfill4 (year t) ++ "-" ++ zfill2 (month t) ++ "-" ++ zfill2 (day t))%string.

(** A time field of a document holds either text or a [datetime]. The only
    text the handlers ever store is [t.isoformat()], which
    [datetime.fromisoformat] reads back as [t]; the text is represented by
    the [datetime] it renders. *)
Inductive timeval : Type :=
| IsoText (t : datetime)
| DateTime (t : datetime).

Definition isoformat (v : timeval) : timeval :=
  match v with
  | DateTime t => IsoText t
  | IsoText t => IsoText t
  end.

(** [if isinstance(v, str): v = datetime.fromisoformat(v)] *)
Definition fromisoformat_if_str (v : timeval) : timeval :=
  match v with
  | IsoText t => DateTime t
  | DateTime t => DateTime t
  end.

(** ** Models

    One record per pydantic model; the dictionaries made by [model_dump] and
    the documents of the store have the same fields, so they share the
    record (the [_id] the driver adds is projected away by every query that
    returns a document and is never read). *)

Module User.
Record t : Type := mk {
  id : string;
  name : string;
  age : Z;
  weight : float;
  height : float;
  sex : string;
  gym_attendance : bool;
  goal_weight : option float;
  created_at : timeval
}.
End User.

Module UserCreate.
Record t : Type := mk {
  name : string;
  age : Z;
  weight : float;
  height : float;
  sex : string;
  gym_attendance : bool;
  goal_weight : option float
}.
End UserCreate.

Module WaterLog.
Record t : Type := mk {
  id : string;
  user_id : string;
  amount : float;
  date : string;
  timestamp : timeval
}.
End WaterLog.

Module WaterLogCreate.
Record t : Type := mk { user_id : string; amount : float }.
End WaterLogCreate.

Module ProgressLog.
Record t : Type := mk {
  id : string;
  user_id : string;
  weight : float;
  date : string;
  timestamp : timeval
}.
End ProgressLog.

Module ProgressLogCreate.
Record t : Type := mk { user_id : string; weight : float }.
End ProgressLogCreate.

(** ** The store and the handler monad *)

Record DB : Type := mk_db {
  users : list User.t;
  water_logs : list WaterLog.t;
  progress_logs : list ProgressLog.t
}.

Definition Handler (A : Type) : Type := DB -> result A * DB.

Definition ret {A : Type} (a : A) : Handler A := fun db => (Ok a, db).

Definition raise {A : Type} (e : exn) : Handler A := fun db => (Raise e, db).

Definition bind {A B : Type} (m : Handler A) (k : A -> Handler B) : Handler B :=
  fun db =>
    match m db with
    | (Ok a, db') => k a db'
    | (Raise e, db') => (Raise e, db')
    end.

Definition lift {A : Type} (r : result A) : Handler A := fun db => (r, db).

Notation "x <- c ;; k" := (bind c (fun x => k))
  (at level 61, c at next level, right associativity).
Notation "c ;;; k" := (bind c (fun _ => k))
  (at level 61, right associativity).

(** ** motor: the collection operations the handlers call

    A collection is the list of its documents in insertion order, which is
    the order an unsorted query returns them in. *)

(** [db.users.find_one({"id": user_id}, ...)]: the first match, or [None]. *)
Definition users_find_one (user_id : string) : Handler (option User.t) :=
  fun db => (Ok (find (fun d => (User.id d =? user_id)%string) (users db)), db).

(** [db.users.insert_one(doc)] *)
Definition users_insert_one (doc : User.t) : Handler unit :=
  fun db => (Ok tt, mk_db (users db ++ [doc]) (water_logs db) (progress_logs db)).

Fixpoint update_first {A : Type} (p : A -> bool) (f : A -> A) (l : list A) : list A :=
  match l with
  | [] => []
  | x :: r => if p x then f x :: r else x :: update_first p f r
  end.

(** [db.users.update_one({"id": user_id}, {"$set": ...})]: the first match is
    updated, if there is one. *)
Definition users_update_one (user_id : string) (set : User.t -> User.t) : Handler unit :=
  fun db =>
    (Ok tt,
     mk_db (update_first (fun d => (User.id d =? user_id)%string) set (users db))
           (water_logs db) (progress_logs db)).

(** [db.water_logs.insert_one(doc)] *)
Definition water_logs_insert_one (doc : WaterLog.t) : Handler unit :=
  fun db => (Ok tt, mk_db (users db) (water_logs db ++ [doc]) (progress_logs db)).

Definition water_query (user_id date : string) (d : WaterLog.t) : bool :=
  (WaterLog.user_id d =? user_id)%string && (WaterLog.date d =? date)%string.

(** [db.water_logs.find({"user_id": user_id, "date": date}, ...).to_list(length)] *)
Definition water_logs_find (user_id date : string) (length : nat)
  : Handler (list WaterLog.t) :=
  fun db => (Ok (firstn length (filter (water_query user_id date) (water_logs db))), db).

(** [db.progress_logs.insert_one(doc)] *)
Definition progress_logs_insert_one (doc : ProgressLog.t) : Handler unit :=
  fun db => (Ok tt, mk_db (users db) (water_logs db) (progress_logs db ++ [doc])).

Definition progress_query (user_id : string) (d : ProgressLog.t) : bool :=
  (ProgressLog.user_id d =? user_id)%string.

(** [.sort("date", 1)]: ascending by the date string, byte-wise; documents
    with equal dates keep their insertion order. *)
Fixpoint insert_by_date (x : ProgressLog.t) (l : list ProgressLog.t)
  : list ProgressLog.t :=
  match l with
  | [] => [x]
  | y :: r =>
      if String.leb (ProgressLog.date x) (ProgressLog.date y)
      then x :: y :: r
      else y :: insert_by_date x r
  end.

Definition sort_by_date (l : list ProgressLog.t) : list ProgressLog.t :=
  fold_right insert_by_date [] l.

(** [db.progress_logs.find({"user_id": user_id}, ...).sort("date", 1).to_list(length)] *)
Definition progress_logs_find_sorted (user_id : string) (length : nat)
  : Handler (list ProgressLog.t) :=
  fun db =>
    (Ok (firstn length (sort_by_date (filter (progress_query user_id) (progress_logs db)))),
     db).

(** ** The handlers

    [uuid.uuid4()] and [datetime.now(timezone.utc)] read the process's
    entropy and clock: the values they return are arguments of the handler
    that calls them, in the order of the calls. *)

Definition not_found {A : Type} : Handler A :=
  raise (HTTPException 404 "User not found").

(** POST /user *)
Definition create_user (uuid4 : string) (now : datetime) (user_input : UserCreate.t)
  : Handler User.t :=
  let user_obj :=
    User.mk uuid4 (UserCreate.name user_input) (UserCreate.age user_input)
      (UserCreate.weight user_input) (UserCreate.height user_input)
      (UserCreate.sex user_input) (UserCreate.gym_attendance user_input)
      (UserCreate.goal_weight user_input) (DateTime now) in
  let doc :=
    User.mk (User.id user_obj) (User.name user_obj) (User.age user_obj)
      (User.weight user_obj) (User.height user_obj) (User.sex user_obj)
      (User.gym_attendance user_obj) (User.goal_weight user_obj)
      (isoformat (User.created_at user_obj)) in
  users_insert_one doc ;;;
  ret user_obj.

(** [user['created_at'] = datetime.fromisoformat(user['created_at'])] when
    the field holds text. *)
Definition parse_created_at (user : User.t) : User.t :=
  User.mk (User.id user) (User.name user) (User.age user) (User.weight user)
    (User.height user) (User.sex user) (User.gym_attendance user)
    (User.goal_weight user) (fromisoformat_if_str (User.created_at user)).

(** GET /user/{user_id} *)
Definition get_user (user_id : string) : Handler User.t :=
  user <- users_find_one user_id ;;
  match user with
  | None => not_found
  | Some user => ret (parse_created_at user)
  end.

(** [{"$set": user_input.model_dump()}]: the seven keys of [UserCreate] are
    set, every other key of the document is kept. *)
Definition set_fields (update_dict : UserCreate.t) (doc : User.t) : User.t :=
  User.mk (User.id doc) (UserCreate.name update_dict) (UserCreate.age update_dict)
    (UserCreate.weight update_dict) (UserCreate.height update_dict)
    (UserCreate.sex update_dict) (UserCreate.gym_attendance update_dict)
    (UserCreate.goal_weight update_dict) (User.created_at doc).

(** PUT /user/{user_id} *)
Definition update_user (user_id : string) (user_input : UserCreate.t) : Handler User.t :=
  existing <- users_find_one user_id ;;
  match existing with
  | None => not_found
  | Some _ =>
      users_update_one user_id (set_fields user_input) ;;;
      updated <- users_find_one user_id ;;
      match updated with
      | None => raise TypeError
      | Some updated => ret (parse_created_at updated)
      end
  end.

(** POST /water *)
Definition log_water (now : datetime) (uuid4 : string) (now' : datetime)
    (water_input : WaterLogCreate.t) : Handler WaterLog.t :=
  let today := strftime_Ymd now in
  let water_obj :=
    WaterLog.mk uuid4 (WaterLogCreate.user_id water_input)
      (WaterLogCreate.amount water_input) today (DateTime now') in
  let doc :=
    WaterLog.mk (WaterLog.id water_obj) (WaterLog.user_id water_obj)
      (WaterLog.amount water_obj) (WaterLog.date water_obj)
      (isoformat (WaterLog.timestamp water_obj)) in
  water_logs_insert_one doc ;;;
  ret water_obj.

Definition parse_water_timestamp (log : WaterLog.t) : WaterLog.t :=
  WaterLog.mk (WaterLog.id log) (WaterLog.user_id log) (WaterLog.amount log)
    (WaterLog.date log) (fromisoformat_if_str (WaterLog.timestamp log)).

(** [if not date: date = datetime.now(timezone.utc).strftime("%Y-%m-%d")];
    [None] and the empty string are the falsy values of [Optional[str]]. *)
Definition query_date (now : datetime) (date : option string) : string :=
  match date with
  | None => strftime_Ymd now
  | Some s => if (s =? "")%string then strftime_Ymd now else s
  end.

(** GET /water/{user_id}?date= *)
Definition get_water_logs (now : datetime) (user_id : string) (date : option string)
  : Handler (list WaterLog.t) :=
  let date := query_date now date in
  logs <- water_logs_find user_id date 1000 ;;
  ret (map parse_water_timestamp logs).

Record WaterGoal : Type := mk_water_goal {
  wg_user_id : string;
  daily_goal_ml : float;
  daily_goal_liters : float
}.

(** GET /water/calculate/{user_id} *)
Definition calculate_water_goal (user_id : string) : Handler WaterGoal :=
  user <- users_find_one user_id ;;
  match user with
  | None => not_found
  | Some user =>
      let water_goal := (User.weight user * 35)%float in
      liters <- lift (PyFloat.truediv water_goal 1000) ;;
      ret (mk_water_goal user_id water_goal (PyFloat.round liters 2))
  end.

(** The dictionary [get_workouts] returns: ["type"], ["routine"] and a last
    key, ["cardio"] in one plan and ["notes"] in the other, kept with its
    text. *)
Module Workouts.
Record exercise : Type := mk_exercise { name : string; sets : string; rest : string }.
Record routine_day : Type := mk_day {
  day : string; focus : string; exercises : list exercise
}.
Record t : Type := mk {
  type : string;
  routine : list routine_day;
  last_key : string * string
}.
End Workouts.

Definition exercise := Workouts.mk_exercise.
Definition routine_day := Workouts.mk_day.

Definition gym_workouts : Workouts.t :=
  Workouts.mk "Academia" [
      routine_day "Segunda-feira" "Peito e Tríceps" [
        exercise "Supino Reto" "4x10" "60s";
        exercise "Supino Inclinado" "3x12" "60s";
        exercise "Crucifixo" "3x12" "45s";
        exercise "Tríceps Pulley" "3x15" "45s";
        exercise "Tríceps Testa" "3x12" "45s" ];
      routine_day "Quarta-feira" "Costas e Bíceps" [
        exercise "Puxada Frontal" "4x10" "60s";
        exercise "Remada Curvada" "3x12" "60s";
        exercise "Pullover" "3x12" "45s";
        exercise "Rosca Direta" "3x12" "45s";
        exercise "Rosca Martelo" "3x12" "45s" ];
      routine_day "Sexta-feira" "Pernas e Ombros" [
        exercise "Agachamento" "4x12" "90s";
        exercise "Leg Press" "3x15" "60s";
        exercise "Cadeira Extensora" "3x12" "45s";
        exercise "Desenvolvimento" "4x10" "60s";
        exercise "Elevação Lateral" "3x15" "45s" ] ]
    ("cardio", "20-30 min após treino ou dias alternados").

Definition home_workouts : Workouts.t :=
  Workouts.mk "Casa (Funcional)" [
      routine_day "Segunda/Quarta/Sexta" "Corpo Inteiro" [
        exercise "Flexões" "3x12" "45s";
        exercise "Agachamento Livre" "4x15" "45s";
        exercise "Prancha" "3x45s" "30s";
        exercise "Afundo" "3x12 cada perna" "45s";
        exercise "Burpees" "3x10" "60s";
        exercise "Mountain Climbers" "3x20" "45s" ];
      routine_day "Terça/Quinta" "Cardio + Core" [
        exercise "Polichinelos" "3x30" "30s";
        exercise "Abdominal" "3x20" "30s";
        exercise "Abdominal Bicicleta" "3x20" "30s";
        exercise "Prancha Lateral" "3x30s cada lado" "30s";
        exercise "High Knees" "3x30s" "30s" ] ]
    ("notes", "Sempre aqueça por 5 minutos antes de começar").

(** GET /workouts/{user_id} *)
Definition get_workouts (user_id : string) : Handler Workouts.t :=
  user <- users_find_one user_id ;;
  match user with
  | None => not_found
  | Some user =>
      let workouts :=
        if User.gym_attendance user then gym_workouts else home_workouts in
      ret workouts
  end.

(** POST /progress *)
Definition log_progress (now : datetime) (uuid4 : string) (now' : datetime)
    (progress_input : ProgressLogCreate.t) : Handler ProgressLog.t :=
  let today := strftime_Ymd now in
  let progress_obj :=
    ProgressLog.mk uuid4 (ProgressLogCreate.user_id progress_input)
      (ProgressLogCreate.weight progress_input) today (DateTime now') in
  let doc :=
    ProgressLog.mk (ProgressLog.id progress_obj) (ProgressLog.user_id progress_obj)
      (ProgressLog.weight progress_obj) (ProgressLog.date progress_obj)
      (isoformat (ProgressLog.timestamp progress_obj)) in
  progress_logs_insert_one doc ;;;
  ret progress_obj.

Definition parse_progress_timestamp (log : ProgressLog.t) : ProgressLog.t :=
  ProgressLog.mk (ProgressLog.id log) (ProgressLog.user_id log)
    (ProgressLog.weight log) (ProgressLog.date log)
    (fromisoformat_if_str (ProgressLog.timestamp log)).

(** GET /progress/{user_id} *)
Definition get_progress (user_id : string) : Handler (list ProgressLog.t) :=
  logs <- progress_logs_find_sorted user_id 1000 ;;
  ret (map parse_progress_timestamp logs).

Record Bmi : Type := mk_bmi {
  bmi_user_id : string;
  bmi : float;
  status : string;
  color : string
}.

(** The [if]/[elif] chain of [calculate_bmi] on the unrounded value. *)
Definition classify (bmi : float) : string * string :=
  if (bmi <? 18.5)%float then ("Baixo peso", "#3B82F6")
  else if (18.5 <=? bmi)%float && (bmi <? 25)%float then ("Peso normal", "#10B981")
  else if (25 <=? bmi)%float && (bmi <? 30)%float then ("Sobrepeso", "#F59E0B")
  else ("Obesidade", "#EF4444").

(** GET /bmi/{user_id}, on a platform whose [pow(x, 2.0)] is [pow_2]. *)
Definition calculate_bmi (pow_2 : float -> float) (user_id : string) : Handler Bmi :=
  user <- users_find_one user_id ;;
  match user with
  | None => not_found
  | Some user =>
      height_m <- lift (PyFloat.truediv (User.height user) 100) ;;
      height_m2 <- lift (PyFloat.pow2 pow_2 height_m) ;;
      bmi <- lift (PyFloat.truediv (User.weight user) height_m2) ;;
      let '(status, color) := classify bmi in
      ret (mk_bmi user_id (PyFloat.round bmi 1) status color)
  end.

Definition messages : list string := [
  "Você está indo bem! Continue assim!";
  "Não desista hoje! Cada passo conta.";
  "Seu corpo agradece cada escolha saudável.";
  "Acredite em si mesmo. Você consegue!";
  "Pequenos progressos diários levam a grandes resultados.";
  "Você é mais forte do que pensa!";
  "Mantenha o foco no seu objetivo.";
  "Cada dia é uma nova oportunidade.";
  "Sua saúde é seu maior tesouro.";
  "Consistência é a chave do sucesso!" ].

(** [random.choice(seq)]: [seq[i]] where [i] is what the generator's
    [_randbelow(len(seq))] returned; an empty [seq] raises [IndexError]. *)
Definition choice {A : Type} (seq : list A) (i : nat) : result A :=
  match nth_error seq i with
  | Some x => Ok x
  | None => Raise IndexError
  end.

Record Motivation : Type := mk_motivation { message : string }.

(** GET /motivation *)
Definition get_motivation (randbelow : nat) : Handler Motivation :=
  m <- lift (choice messages randbelow) ;;
  ret (mk_motivation m).

(** GET / (on the second application object) *)
Definition home : string := "<h1>🚀 API do Meu App está funcionando!</h1>".

(** The dictionary [get_meals] returns: four slots, each a list of
    recipes. *)
Module Meals.
Record recipe : Type := mk_recipe {
  name : string;
  ingredients : list string;
  calories : Z;
  prep_time : string
}.
Record t : Type := mk {
  breakfast : list recipe;
  lunch : list recipe;
  dinner : list recipe;
  snack : list recipe
}.
End Meals.

Definition recipe := Meals.mk_recipe.

Definition meals : Meals.t :=
  Meals.mk
    [ recipe "Omelete com Vegetais"
        ["2 ovos"; "Espinafre"; "Tomate"; "Cebola"; "Pimentão"] 250 "10 min";
      recipe "Aveia com Frutas"
        ["50g aveia"; "1 banana"; "Morangos"; "1 colher mel"; "Canela"] 300 "5 min";
      recipe "Iogurte Natural com Granola"
        ["200g iogurte natural"; "30g granola"; "Frutas vermelhas"; "Chia"] 280 "3 min" ]
    [ recipe "Frango Grelhado com Legumes"
        ["150g peito de frango"; "Brócolis"; "Cenoura"; "Arroz integral"; "Azeite"]
        450 "25 min";
      recipe "Peixe Assado com Salada"
        ["150g filé de peixe"; "Alface"; "Tomate"; "Pepino"; "Batata doce"] 400 "30 min";
      recipe "Salada de Quinoa"
        ["100g quinoa"; "Grão de bico"; "Abacate"; "Folhas verdes"; "Limão"]
        420 "20 min" ]
    [ recipe "Sopa de Legumes"
        ["Cenoura"; "Abobrinha"; "Batata"; "Cebola"; "Alho"] 200 "30 min";
      recipe "Omelete Light"
        ["3 claras"; "1 gema"; "Cogumelos"; "Queijo branco"; "Tomate"] 220 "10 min";
      recipe "Salada Caesar com Frango"
        ["100g frango grelhado"; "Alface romana"; "Parmesão"; "Molho light"]
        350 "15 min" ]
    [ recipe "Mix de Castanhas"
        ["Amêndoas"; "Castanha de caju"; "Nozes"] 150 "0 min";
      recipe "Frutas com Pasta de Amendoim"
        ["1 maçã"; "1 colher pasta amendoim"] 180 "2 min";
      recipe "Smoothie Verde"
        ["Espinafre"; "Banana"; "Abacaxi"; "Água de coco"] 160 "5 min" ].

(** GET /meals *)
Definition get_meals : Handler Meals.t := ret meals.

(** ** Requests

    The twelve routes of [api_router], each with its path and body
    parameters, the draws of clock and entropy its handler makes and,
    for the BMI, the platform's [pow(x, 2.0)].
    Serving a request leaves the store the handler leaves; a raised
    exception undoes nothing. *)
Inductive request : Type :=
| POST_user (uuid4 : string) (now : datetime) (body : UserCreate.t)
| GET_user (user_id : string)
| PUT_user (user_id : string) (body : UserCreate.t)
| POST_water (now : datetime) (uuid4 : string) (now' : datetime)
    (body : WaterLogCreate.t)
| GET_water (now : datetime) (user_id : string) (date : option string)
| GET_water_calculate (user_id : string)
| GET_meals
| GET_workouts (user_id : string)
| POST_progress (now : datetime) (uuid4 : string) (now' : datetime)
    (body : ProgressLogCreate.t)
| GET_progress (user_id : string)
| GET_bmi (pow_2 : float -> float) (user_id : string)
| GET_motivation (randbelow : nat).

Definition serve (r : request) (db : DB) : DB :=
  match r with
  | POST_user uuid4 now body => snd (create_user uuid4 now body db)
  | GET_user user_id => snd (get_user user_id db)
  | PUT_user user_id body => snd (update_user user_id body db)
  | POST_water now uuid4 now' body => snd (log_water now uuid4 now' body db)
  | GET_water now user_id date => snd (get_water_logs now user_id date db)
  | GET_water_calculate user_id => snd (calculate_water_goal user_id db)
  | GET_meals => snd (get_meals db)
  | GET_workouts user_id => snd (get_workouts user_id db)
  | POST_progress now uuid4 now' body => snd (log_progress now uuid4 now' body db)
  | GET_progress user_id => snd (get_progress user_id db)
  | GET_bmi pow_2 user_id => snd (calculate_bmi pow_2 user_id db)
  | GET_motivation randbelow => snd (get_motivation randbelow db)
  end.

(** The store after a sequence of requests, served one after the other. *)
Definition serve_all (rs : list request) (db : DB) : DB :=
  fold_left (fun db r => serve r db) rs db.

(** Whether a request is one of the reads. *)
Definition is_get (r : request) : bool :=
  match r with
  | POST_user _ _ _ | PUT_user _ _ | POST_water _ _ _ _ | POST_progress _ _ _ _ => false
  | _ => true
  end.

Definition is_post_user (r : request) : bool :=
  match r with POST_user _ _ _ => true | _ => false end.

Definition is_post_water (r : request) : bool :=
  match r with POST_water _ _ _ _ => true | _ => false end.

Definition is_post_progress (r : request) : bool :=
  match r with POST_progress _ _ _ _ => true | _ => false end.

Definition is_text (v : timeval) : Prop :=
  match v with IsoText _ => True | DateTime _ => False end.

(** Every time field of every document is text. *)
Definition text_times (db : DB) : Prop :=
  (forall d, In d (users db) -> is_text (User.created_at d)) /\
  (forall d, In d (water_logs db) -> is_text (WaterLog.timestamp d)) /\
  (forall d, In d (progress_logs db) -> is_text (ProgressLog.timestamp d)).

(** The document POST /water stores for a request (none for the other
    requests). *)
Definition written_water (r : request) : list WaterLog.t :=
  match r with
  | POST_water now uuid4 now' body =>
      [WaterLog.mk uuid4 (WaterLogCreate.user_id body) (WaterLogCreate.amount body)
         (strftime_Ymd now) (IsoText now')]
  | _ => []
  end.

(** The document POST /progress stores for a request. *)
Definition written_progress (r : request) : list ProgressLog.t :=
  match r with
  | POST_progress now uuid4 now' body =>
      [ProgressLog.mk uuid4 (ProgressLogCreate.user_id body)
         (ProgressLogCreate.weight body) (strftime_Ymd now) (IsoText now')]
  | _ => []
  end.

(** ** Module evaluation: which application object gets what

    [server.py] builds its application at import time. The statements that
    touch the names [app] and [api_router] are run in source order over the
    objects they allocate; the routes FastAPI adds on its own for its
    documentation pages are not part of what the module registers and are
    left out. *)

Module Wiring.

Inductive http_method : Type := GET | POST | PUT.

Record route : Type := mk_route {
  method : http_method;
  path : string;
  endpoint : string
}.

Record FastAPI : Type := mk_app {
  routes : list route;
  user_middleware : list string;
  on_startup : list string;
  on_shutdown : list string
}.

Record APIRouter : Type := mk_router {
  prefix : string;
  router_routes : list route
}.

(** The module's namespace: the application objects in allocation order,
    and what the two names are bound to. *)
Record namespace : Type := mk_ns {
  heap : list FastAPI;
  app : option nat;
  api_router : option APIRouter
}.

Inductive stmt : Type :=
| AssignApp                                   (* app = FastAPI() *)
| AssignRouter (prefix : string)               (* api_router = APIRouter(prefix=...) *)
| RouterRoute (m : http_method) (path endpoint : string)
                                              (* @api_router.m(path) def endpoint *)
| IncludeRouter                               (* app.include_router(api_router) *)
| AddMiddleware (cls : string)                 (* app.add_middleware(cls, ...) *)
| OnEvent (event handler : string)             (* @app.on_event(event) def handler *)
| AppRoute (m : http_method) (path endpoint : string).
                                              (* @app.m(path) def endpoint *)

Definition initial : namespace := mk_ns [] None None.

Fixpoint set_nth {A : Type} (n : nat) (f : A -> A) (l : list A) : list A :=
  match l, n with
  | [], _ => []
  | x :: r, O => f x :: r
  | x :: r, S n => x :: set_nth n f r
  end.

(** Mutate the object the name [app] is bound to; an unbound name is a
    [NameError], here [None]. *)
Definition on_app (f : FastAPI -> FastAPI) (ns : namespace) : option namespace :=
  match app ns with
  | None => None
  | Some a => Some (mk_ns (set_nth a f (heap ns)) (app ns) (api_router ns))
  end.

Definition exec (s : stmt) (ns : namespace) : option namespace :=
  match s with
  | AssignApp =>
      Some (mk_ns (heap ns ++ [mk_app [] [] [] []]) (Some (List.length (heap ns)))
                  (api_router ns))
  | AssignRouter p =>
      Some (mk_ns (heap ns) (app ns) (Some (mk_router p [])))
  | RouterRoute m p e =>
      match api_router ns with
      | None => None
      | Some r =>
          Some (mk_ns (heap ns) (app ns)
                  (Some (mk_router (prefix r)
                           (router_routes r ++ [mk_route m (prefix r ++ p)%string e]))))
      end
  | IncludeRouter =>
      match api_router ns with
      | None => None
      | Some r =>
          on_app (fun a => mk_app (routes a ++ router_routes r) (user_middleware a)
                             (on_startup a) (on_shutdown a)) ns
      end
  | AddMiddleware cls =>
      on_app (fun a => mk_app (routes a) (cls :: user_middleware a)
                         (on_startup a) (on_shutdown a)) ns
  | OnEvent event handler =>
      on_app (fun a =>
                if (event =? "startup")%string
                then mk_app (routes a) (user_middleware a)
                       (on_startup a ++ [handler]) (on_shutdown a)
                else mk_app (routes a) (user_middleware a)
                       (on_startup a) (on_shutdown a ++ [handler])) ns
  | AppRoute m p e =>
      on_app (fun a => mk_app (routes a ++ [mk_route m p e]) (user_middleware a)
                         (on_startup a) (on_shutdown a)) ns
  end.

Fixpoint run (prog : list stmt) (ns : namespace) : option namespace :=
  match prog with
  | [] => Some ns
  | s :: rest =>
      match exec s ns with
      | None => None
      | Some ns' => run rest ns'
      end
  end.

(** [server.py], top to bottom. *)
Definition server_py : list stmt := [
  AssignApp;
  AssignRouter "/api";
  RouterRoute POST "/user" "create_user";
  RouterRoute GET "/user/{user_id}" "get_user";
  RouterRoute PUT "/user/{user_id}" "update_user";
  RouterRoute POST "/water" "log_water";
  RouterRoute GET "/water/{user_id}" "get_water_logs";
  RouterRoute GET "/water/calculate/{user_id}" "calculate_water_goal";
  RouterRoute GET "/meals" "get_meals";
  RouterRoute GET "/workouts/{user_id}" "get_workouts";
  RouterRoute POST "/progress" "log_progress";
  RouterRoute GET "/progress/{user_id}" "get_progress";
  RouterRoute GET "/bmi/{user_id}" "calculate_bmi";
  RouterRoute GET "/motivation" "get_motivation";
  IncludeRouter;
  AddMiddleware "CORSMiddleware";
  OnEvent "shutdown" "shutdown_db_client";
  AssignApp;
  AppRoute GET "/" "home"
].

(** The object a namespace's [app] names. *)
Definition app_object (ns : namespace) : option FastAPI :=
  match app ns with
  | None => None
  | Some a => nth_error (heap ns) a
  end.

End Wiring.

(** ** Vocabulary of the statements *)

(** [user] is the document the store returns for [user_id]. *)
Definition stored (db : DB) (user_id : string) (user : User.t) : Prop :=
  find (fun d => (User.id d =? user_id)%string) (users db) = Some user.

(** No document of the users collection has this id. *)
Definition absent (db : DB) (user_id : string) : Prop :=
  forall d, In d (users db) -> User.id d <> user_id.

Definition empty_db : DB := mk_db [] [] [].

Definition noon : datetime := mk_datetime 2024 5 17 12 0 0 0.

(** The profile of the specification's scenarios, with a weight and a
    height. *)
Definition profile (weight height : float) : UserCreate.t :=
  UserCreate.mk "Ana" 30 weight height "female" true None.

(** The store after one POST /user on an empty store. *)
Definition db_with (user_input : UserCreate.t) : DB :=
  snd (create_user "u1" noon user_input empty_db).

(** The store after [n] POST /water of 250 ml by user "u1", all at [noon],
    the k-th draw of [uuid4] being "w" followed by k on four digits. *)
Fixpoint after_posts (n : nat) (db : DB) : DB :=
  match n with
  | O => db
  | S k =>
      snd (log_water noon ("w" ++ zfill4 (Z.of_nat k))%string noon
             (WaterLogCreate.mk "u1" 250) (after_posts k db))
  end.

(** The store of a user who logged water a thousand times in one day. *)
Definition full_day_db : DB := after_posts 1000 empty_db.

(** Each date is at most the next one, byte-wise. *)
Fixpoint ascending (l : list ProgressLog.t) : Prop :=
  match l with
  | [] => True
  | x :: r =>
      match r with
      | [] => True
      | y :: _ => String.leb (ProgressLog.date x) (ProgressLog.date y) = true
      end /\ ascending r
  end.

(** * Properties *)

(** ** The application object *)

(** C1: after the module has been evaluated, the name [app] is bound to the
    second application object, allocated after every registration on the
    first; it has the single route GET "/" (endpoint [home], a constant HTML
    string), no middleware and no event handler, and no route under "/api".
    The twelve "/api" routes, the CORS middleware and the shutdown hook are
    on the first object, which no name refers to any more. *)
Theorem final_app_exposes_only_home :
  exists ns first final,
    Wiring.run Wiring.server_py Wiring.initial = Some ns /\
    Wiring.app ns = Some 1%nat /\
    nth_error (Wiring.heap ns) 0 = Some first /\
    Wiring.app_object ns = Some final /\
    Wiring.routes final = [Wiring.mk_route Wiring.GET "/" "home"] /\
    Wiring.user_middleware final = [] /\
    Wiring.on_startup final = [] /\
    Wiring.on_shutdown final = [] /\
    (forall r, In r (Wiring.routes final) ->
               String.prefix "/api" (Wiring.path r) = false) /\
    map Wiring.path (Wiring.routes first) =
      ["/api/user"; "/api/user/{user_id}"; "/api/user/{user_id}"; "/api/water";
       "/api/water/{user_id}"; "/api/water/calculate/{user_id}"; "/api/meals";
       "/api/workouts/{user_id}"; "/api/progress"; "/api/progress/{user_id}";
       "/api/bmi/{user_id}"; "/api/motivation"] /\
    Wiring.user_middleware first = ["CORSMiddleware"] /\
    Wiring.on_shutdown first = ["shutdown_db_client"].
Proof.
  eexists. eexists. eexists.
  split; [vm_compute; reflexivity|].
  split; [reflexivity|].
  split; [reflexivity|].
  split; [reflexivity|].
  cbn [Wiring.routes Wiring.user_middleware Wiring.on_startup Wiring.on_shutdown].
  repeat split.
  intros r [<- | []]. reflexivity.
Qed.

(** ** Order facts on binary64 numbers *)

Section FloatOrder.

Lemma not_nan_spec (x : float) : is_nan x = false -> Prim2SF x <> S754_nan.
Proof.
  unfold is_nan. rewrite eqb_spec. intros H E. rewrite E in H. discriminate.
Qed.

Variables (M : positive) (E : Z).
Let c := S754_finite false M E.

Lemma SF_not_lt_le (x : spec_float) :
  x <> S754_nan -> SFltb x c = false -> SFleb c x = true.
Proof.
  unfold SFltb, SFleb, c. destruct x as [s|s| |s m e]; simpl; try congruence.
  - destruct s; simpl; congruence.
  - destruct s; simpl; try congruence. intros _.
    rewrite (Z.compare_antisym E e).
    destruct (E ?= e); simpl; try congruence.
    change (Pos.compare_cont Eq m M) with (Pos.compare m M).
    change (Pos.compare_cont Eq M m) with (Pos.compare M m).
    rewrite (Pos.compare_antisym M m).
    destruct (M ?= m)%positive; simpl; congruence.
Qed.

Lemma SF_le_not_lt (x : spec_float) : SFleb c x = true -> SFltb x c = false.
Proof.
  unfold SFltb, SFleb, c. destruct x as [s|s| |s m e]; simpl; try congruence.
  - destruct s; simpl; congruence.
  - destruct s; simpl; try congruence.
    rewrite (Z.compare_antisym E e).
    destruct (E ?= e); simpl; try congruence.
    change (Pos.compare_cont Eq m M) with (Pos.compare m M).
    change (Pos.compare_cont Eq M m) with (Pos.compare M m).
    rewrite (Pos.compare_antisym M m).
    destruct (M ?= m)%positive; simpl; congruence.
Qed.

Lemma SF_lt_mono (M' : positive) (x : spec_float) :
  (M < M')%positive -> SFltb x c = true -> SFltb x (S754_finite false M' E) = true.
Proof.
  unfold SFltb, c. destruct x as [s|s| |s m e]; simpl; try congruence.
  destruct s; simpl; try congruence. intros HM.
  destruct (e ?= E); simpl; try congruence.
  change (Pos.compare_cont Eq m M) with (Pos.compare m M).
  change (Pos.compare_cont Eq m M') with (Pos.compare m M').
  destruct (Pos.compare_spec m M); try congruence. intros _.
  destruct (Pos.compare_spec m M'); try reflexivity; lia.
Qed.

End FloatOrder.

Lemma not_lt_le (x c : float) (M : positive) (E : Z) :
  Prim2SF c = S754_finite false M E ->
  is_nan x = false -> (x <? c)%float = false -> (c <=? x)%float = true.
Proof.
  intros Hc Hx. rewrite ltb_spec, leb_spec, Hc.
  apply SF_not_lt_le, not_nan_spec, Hx.
Qed.

Lemma le_not_lt (x c : float) (M : positive) (E : Z) :
  Prim2SF c = S754_finite false M E ->
  (c <=? x)%float = true -> (x <? c)%float = false.
Proof.
  intros Hc. rewrite ltb_spec, leb_spec, Hc. apply SF_le_not_lt.
Qed.

Lemma lt_mono (x c c' : float) (M M' : positive) (E : Z) :
  Prim2SF c = S754_finite false M E ->
  Prim2SF c' = S754_finite false M' E ->
  (M < M')%positive ->
  (x <? c)%float = true -> (x <? c')%float = true.
Proof.
  intros Hc Hc' HM. rewrite !ltb_spec, Hc, Hc'. apply SF_lt_mono, HM.
Qed.

Lemma Prim2SF_18_5 : Prim2SF 18.5 = S754_finite false 5207287069147136 (-48).
Proof. reflexivity. Qed.

Lemma Prim2SF_25 : Prim2SF 25 = S754_finite false 7036874417766400 (-48).
Proof. reflexivity. Qed.

Lemma Prim2SF_30 : Prim2SF 30 = S754_finite false 8444249301319680 (-48).
Proof. reflexivity. Qed.

(** The six comparisons of the chain, for a number that is not nan, are
    those of a point on a line cut at 18.5, 25 and 30. *)
Lemma comparisons_on_a_line (x : float) :
  is_nan x = false ->
  ((x <? 18.5)%float = negb (18.5 <=? x)%float) /\
  ((x <? 25)%float = negb (25 <=? x)%float) /\
  ((x <? 30)%float = negb (30 <=? x)%float) /\
  ((x <? 18.5)%float = true -> (x <? 25)%float = true) /\
  ((x <? 25)%float = true -> (x <? 30)%float = true).
Proof.
  intros Hx.
  pose proof (not_lt_le x _ _ _ Prim2SF_18_5 Hx) as A1.
  pose proof (not_lt_le x _ _ _ Prim2SF_25 Hx) as A2.
  pose proof (not_lt_le x _ _ _ Prim2SF_30 Hx) as A3.
  pose proof (le_not_lt x _ _ _ Prim2SF_18_5) as B1.
  pose proof (le_not_lt x _ _ _ Prim2SF_25) as B2.
  pose proof (le_not_lt x _ _ _ Prim2SF_30) as B3.
  repeat split.
  - destruct (x <? 18.5)%float eqn:Hb, (18.5 <=? x)%float eqn:Hl; simpl; auto.
  - destruct (x <? 25)%float eqn:Hb, (25 <=? x)%float eqn:Hl; simpl; auto.
  - destruct (x <? 30)%float eqn:Hb, (30 <=? x)%float eqn:Hl; simpl; auto.
  - apply (lt_mono x _ _ _ _ _ Prim2SF_18_5 Prim2SF_25). reflexivity.
  - apply (lt_mono x _ _ _ _ _ Prim2SF_25 Prim2SF_30). reflexivity.
Qed.

Ltac case_bands x :=
  let H := fresh in
  intros H;
  destruct (comparisons_on_a_line x H) as (E1 & E2 & E3 & L1 & L2);
  unfold classify;
  destruct (18.5 <=? x)%float, (25 <=? x)%float, (30 <=? x)%float;
  simpl in E1, E2, E3; rewrite E1, E2, E3 in *; simpl;
  try (specialize (L1 eq_refl)); try (specialize (L2 eq_refl));
  try discriminate;
  repeat split; intros; try reflexivity; try discriminate;
  repeat match goal with H : _ /\ _ |- _ => destruct H end; try discriminate.

(** The status chosen by the chain, band by band. *)
Lemma status_bands (x : float) :
  is_nan x = false ->
  (fst (classify x) = "Baixo peso" <-> (x <? 18.5)%float = true) /\
  (fst (classify x) = "Peso normal" <->
     (18.5 <=? x)%float = true /\ (x <? 25)%float = true) /\
  (fst (classify x) = "Sobrepeso" <->
     (25 <=? x)%float = true /\ (x <? 30)%float = true) /\
  (fst (classify x) = "Obesidade" <-> (30 <=? x)%float = true).
Proof. case_bands x. Qed.

(** The colour chosen by the chain, band by band. *)
Lemma color_bands (x : float) :
  is_nan x = false ->
  (snd (classify x) = "#3B82F6" <-> (x <? 18.5)%float = true) /\
  (snd (classify x) = "#10B981" <->
     (18.5 <=? x)%float = true /\ (x <? 25)%float = true) /\
  (snd (classify x) = "#F59E0B" <->
     (25 <=? x)%float = true /\ (x <? 30)%float = true) /\
  (snd (classify x) = "#EF4444" <-> (30 <=? x)%float = true).
Proof. case_bands x. Qed.

(** ** What the handlers do for a stored user *)

Lemma truediv_ok (a b : float) :
  (b =? 0)%float = false -> PyFloat.truediv a b = Ok (a / b)%float.
Proof. unfold PyFloat.truediv. intros ->. reflexivity. Qed.

Lemma calculate_bmi_stored (pow_2 : float -> float) (db : DB) (user_id : string) (user : User.t)
    (height_m2 : float) :
  stored db user_id user ->
  PyFloat.pow2 pow_2 (User.height user / 100) = Ok height_m2 ->
  (height_m2 =? 0)%float = false ->
  calculate_bmi pow_2 user_id db =
    (Ok (mk_bmi user_id
           (PyFloat.round (User.weight user / height_m2) 1)
           (fst (classify (User.weight user / height_m2)))
           (snd (classify (User.weight user / height_m2)))),
     db).
Proof.
  intros Hs Hp Hz.
  unfold calculate_bmi, bind, users_find_one, lift, ret.
  unfold stored in Hs. rewrite Hs.
  rewrite (truediv_ok (User.height user) 100 eq_refl), Hp, (truediv_ok _ _ Hz).
  destruct (classify (User.weight user / height_m2)). reflexivity.
Qed.

Lemma create_user_stored (user_input : UserCreate.t) :
  exists user,
    stored (db_with user_input) "u1" user /\
    User.weight user = UserCreate.weight user_input /\
    User.height user = UserCreate.height user_input /\
    User.gym_attendance user = UserCreate.gym_attendance user_input.
Proof. eexists. split; [reflexivity|]. repeat split. Qed.

(** C2, as amended: for a stored user with height > 0 whose
    [(height / 100) ** 2], as the platform computes it, does not overflow
    and is not zero, and whose quotient [weight / (height / 100) ** 2] is not
    nan, GET /bmi returns, leaving the store as it was, [bmi] equal to that
    quotient rounded to one decimal, and the band (named here by its
    colour) is chosen from the unrounded quotient: first band below 18.5,
    second from 18.5 up to but not 25, third from 25 up to but not 30,
    fourth from 30. *)
Theorem bmi_rounded_and_bands_from_unrounded (pow_2 : float -> float) (db : DB)
    (user_id : string) (user : User.t) (height_m2 : float) :
  stored db user_id user ->
  (0 <? User.height user)%float = true ->
  PyFloat.pow2 pow_2 (User.height user / 100) = Ok height_m2 ->
  (height_m2 =? 0)%float = false ->
  is_nan (User.weight user / height_m2) = false ->
  exists r,
    calculate_bmi pow_2 user_id db = (Ok r, db) /\
    bmi r = PyFloat.round (User.weight user / height_m2) 1 /\
    (color r = "#3B82F6" <-> (User.weight user / height_m2 <? 18.5)%float = true) /\
    (color r = "#10B981" <->
       (18.5 <=? User.weight user / height_m2)%float = true /\
       (User.weight user / height_m2 <? 25)%float = true) /\
    (color r = "#F59E0B" <->
       (25 <=? User.weight user / height_m2)%float = true /\
       (User.weight user / height_m2 <? 30)%float = true) /\
    (color r = "#EF4444" <-> (30 <=? User.weight user / height_m2)%float = true).
Proof.
  intros Hs _ Hp Hz Hn.
  eexists. split; [apply (calculate_bmi_stored _ _ _ _ _ Hs Hp Hz)|].
  split; [reflexivity|]. cbn [color].
  exact (color_bands _ Hn).
Qed.

Lemma bmi_rounded_and_bands_at_70_175 :
  exists r,
    calculate_bmi PyFloat.rounded_square "u1" (db_with (profile 70 175)) = (Ok r, db_with (profile 70 175)) /\
    bmi r = 22.9%float /\
    color r = "#10B981".
Proof.
  destruct (bmi_rounded_and_bands_from_unrounded PyFloat.rounded_square
              (db_with (profile 70 175)) "u1"
              (User.mk "u1" "Ana" 30 70 175 "female" true None (IsoText noon))
              3.0625%float)
    as (r & Hr & Hb & _ & H2 & _);
    try reflexivity.
  exists r. split; [exact Hr|]. split; [rewrite Hb; reflexivity|].
  apply H2. split; reflexivity.
Defined.

(** C2, as stated, fails: a stored user with the positive height 1e-160 has
    [(height / 100) ** 2] underflow to zero (with a correctly rounded
    [pow], as with glibc's), and the division raises; and whatever the
    platform's [pow], the positive height 5e-324 gives [height / 100 = 0.0],
    whose square is computed without the C library, and the division
    raises. *)
Lemma bmi_raises_on_tiny_height :
  stored (db_with (profile 70 1e-160)) "u1"
    (User.mk "u1" "Ana" 30 70 1e-160 "female" true None (IsoText noon)) /\
  (0 <? 1e-160)%float = true /\
  calculate_bmi PyFloat.rounded_square "u1" (db_with (profile 70 1e-160)) =
    (Raise ZeroDivisionError, db_with (profile 70 1e-160)) /\
  stored (db_with (profile 70 5e-324)) "u1"
    (User.mk "u1" "Ana" 30 70 5e-324 "female" true None (IsoText noon)) /\
  (0 <? 5e-324)%float = true /\
  (forall pow_2,
     calculate_bmi pow_2 "u1" (db_with (profile 70 5e-324)) =
       (Raise ZeroDivisionError, db_with (profile 70 5e-324))) /\
  (forall pow_2,
     ~ (forall db user_id user,
          stored db user_id user -> (0 <? User.height user)%float = true ->
          exists r, calculate_bmi pow_2 user_id db = (Ok r, db))).
Proof.
  split; [reflexivity|]. split; [reflexivity|]. split; [reflexivity|].
  split; [reflexivity|]. split; [reflexivity|]. split; [reflexivity|].
  intros pow_2 H.
  destruct (H (db_with (profile 70 5e-324)) "u1" _ eq_refl eq_refl) as (r & Hr).
  discriminate Hr.
Qed.

(** C3, as amended: under the conditions of C2, the status GET /bmi returns
    is "Baixo peso" exactly when the unrounded value is below 18.5, "Peso
    normal" from 18.5 up to but not 25, "Sobrepeso" from 25 up to but not
    30, and "Obesidade" from 30; a user of weight 70 and height 175 gets
    bmi 22.9 and status "Peso normal" (on a platform whose [pow(1.75, 2.0)]
    is the exact square 3.0625). *)
Theorem bmi_status_labels (pow_2 : float -> float) (db : DB) (user_id : string)
    (user : User.t) (height_m2 : float) :
  stored db user_id user ->
  (0 <? User.height user)%float = true ->
  PyFloat.pow2 pow_2 (User.height user / 100) = Ok height_m2 ->
  (height_m2 =? 0)%float = false ->
  is_nan (User.weight user / height_m2) = false ->
  exists r,
    calculate_bmi pow_2 user_id db = (Ok r, db) /\
    (status r = "Baixo peso" <-> (User.weight user / height_m2 <? 18.5)%float = true) /\
    (status r = "Peso normal" <->
       (18.5 <=? User.weight user / height_m2)%float = true /\
       (User.weight user / height_m2 <? 25)%float = true) /\
    (status r = "Sobrepeso" <->
       (25 <=? User.weight user / height_m2)%float = true /\
       (User.weight user / height_m2 <? 30)%float = true) /\
    (status r = "Obesidade" <-> (30 <=? User.weight user / height_m2)%float = true) /\
    (User.weight user = 70%float -> User.height user = 175%float ->
     pow_2 1.75%float = 3.0625%float ->
     bmi r = 22.9%float /\ status r = "Peso normal").
Proof.
  intros Hs _ Hp Hz Hn.
  eexists. split; [apply (calculate_bmi_stored _ _ _ _ _ Hs Hp Hz)|].
  cbn [status bmi].
  destruct (status_bands _ Hn) as (S1 & S2 & S3 & S4).
  repeat (split; [assumption|]).
  intros Hw Hh Hpow. rewrite Hh in Hp. rewrite Hw.
  assert (height_m2 = 3.0625%float) as ->.
  { vm_compute in Hp. rewrite Hpow in Hp. vm_compute in Hp. congruence. }
  split; reflexivity.
Qed.

Lemma bmi_status_labels_at_70_175 :
  exists r,
    calculate_bmi PyFloat.rounded_square "u1" (db_with (profile 70 175)) = (Ok r, db_with (profile 70 175)) /\
    bmi r = 22.9%float /\
    status r = "Peso normal".
Proof.
  destruct (bmi_status_labels PyFloat.rounded_square
              (db_with (profile 70 175)) "u1"
              (User.mk "u1" "Ana" 30 70 175 "female" true None (IsoText noon))
              3.0625%float)
    as (r & Hr & _ & _ & _ & _ & H);
    try reflexivity.
  exists r. split; [exact Hr|]. apply H; reflexivity.
Defined.

(** C3, as stated, fails: the user of weight 70 and height 175 is answered
    with the status "Peso normal", not "Normal weight". *)
Lemma bmi_status_is_not_english :
  calculate_bmi PyFloat.rounded_square "u1" (db_with (profile 70 175)) =
    (Ok (mk_bmi "u1" 22.9 "Peso normal" "#10B981"), db_with (profile 70 175)) /\
  "Peso normal" <> "Normal weight".
Proof. split; [reflexivity|discriminate]. Qed.

Lemma calculate_water_goal_stored (db : DB) (user_id : string) (user : User.t) :
  stored db user_id user ->
  calculate_water_goal user_id db =
    (Ok (mk_water_goal user_id (User.weight user * 35)
           (PyFloat.round (User.weight user * 35 / 1000) 2)),
     db).
Proof.
  intros Hs.
  unfold calculate_water_goal, bind, users_find_one, lift, ret.
  unfold stored in Hs. rewrite Hs.
  rewrite (truediv_ok _ 1000 eq_refl). reflexivity.
Qed.

(** C4: for every stored user, GET /water/calculate returns, leaving the
    store as it was, [daily_goal_ml] equal to the weight times 35 and
    [daily_goal_liters] equal to that goal divided by 1000 and rounded to
    two decimals; a user of weight 80 gets 2800 and 2.8. *)
Theorem water_goal_is_35_ml_per_kg (db : DB) (user_id : string) (user : User.t) :
  stored db user_id user ->
  exists r,
    calculate_water_goal user_id db = (Ok r, db) /\
    wg_user_id r = user_id /\
    daily_goal_ml r = (User.weight user * 35)%float /\
    daily_goal_liters r = PyFloat.round (daily_goal_ml r / 1000) 2 /\
    (User.weight user = 80%float ->
     daily_goal_ml r = 2800%float /\ daily_goal_liters r = 2.8%float).
Proof.
  intros Hs.
  eexists. split; [apply (calculate_water_goal_stored _ _ _ Hs)|].
  cbn [wg_user_id daily_goal_ml daily_goal_liters].
  repeat (split; [reflexivity|]).
  intros ->. split; reflexivity.
Qed.

Lemma water_goal_at_80 :
  exists r,
    calculate_water_goal "u1" (db_with (profile 80 180)) =
      (Ok r, db_with (profile 80 180)) /\
    daily_goal_ml r = 2800%float /\
    daily_goal_liters r = 2.8%float.
Proof.
  destruct (water_goal_is_35_ml_per_kg
              (db_with (profile 80 180)) "u1"
              (User.mk "u1" "Ana" 30 80 180 "female" true None (IsoText noon))
              eq_refl)
    as (r & Hr & _ & _ & _ & H).
  exists r. split; [exact Hr|]. apply H. reflexivity.
Defined.

(** ** Unknown users *)

Lemma absent_find_none (db : DB) (user_id : string) :
  absent db user_id ->
  find (fun d => (User.id d =? user_id)%string) (users db) = None.
Proof.
  unfold absent. induction (users db) as [|d l IH]; intros H; [reflexivity|].
  simpl. destruct (String.eqb_spec (User.id d) user_id) as [E|_].
  - exfalso. apply (H d); [left; reflexivity|exact E].
  - apply IH. intros d' Hd'. apply H. right. exact Hd'.
Qed.

(** C5: for a user id absent from the users collection, GET /user/{id},
    GET /bmi/{id}, GET /water/calculate/{id} and GET /workouts/{id} each
    raise the 404 "User not found" exception, and the store they leave is
    the store they were given. *)
Theorem unknown_user_is_not_found (pow_2 : float -> float) (db : DB) (user_id : string) :
  absent db user_id ->
  get_user user_id db = (Raise (HTTPException 404 "User not found"), db) /\
  calculate_bmi pow_2 user_id db = (Raise (HTTPException 404 "User not found"), db) /\
  calculate_water_goal user_id db = (Raise (HTTPException 404 "User not found"), db) /\
  get_workouts user_id db = (Raise (HTTPException 404 "User not found"), db).
Proof.
  intros H. apply absent_find_none in H.
  unfold get_user, calculate_bmi, calculate_water_goal, get_workouts,
    bind, users_find_one, not_found, raise.
  rewrite H. repeat split.
Qed.

Lemma unknown_user_after_one_signup :
  get_user "u2" (db_with (profile 70 175)) =
    (Raise (HTTPException 404 "User not found"), db_with (profile 70 175)) /\
  calculate_bmi PyFloat.rounded_square "u2" (db_with (profile 70 175)) =
    (Raise (HTTPException 404 "User not found"), db_with (profile 70 175)) /\
  calculate_water_goal "u2" (db_with (profile 70 175)) =
    (Raise (HTTPException 404 "User not found"), db_with (profile 70 175)) /\
  get_workouts "u2" (db_with (profile 70 175)) =
    (Raise (HTTPException 404 "User not found"), db_with (profile 70 175)).
Proof.
  apply (unknown_user_is_not_found PyFloat.rounded_square (db_with (profile 70 175)) "u2").
  intros d [<- | []]. discriminate.
Defined.

(** ** Updating a profile *)

Section UpdateFirst.

Context {A : Type} (p : A -> bool) (f : A -> A).

Lemma find_update_first (l : list A) (x : A) :
  find p l = Some x -> p (f x) = true ->
  find p (update_first p f l) = Some (f x).
Proof.
  induction l as [|y l IH]; simpl; [discriminate|].
  destruct (p y) eqn:Hy.
  - intros [= ->] Hfx. simpl. rewrite Hfx. reflexivity.
  - intros Hx Hfx. simpl. rewrite Hy. apply IH; assumption.
Qed.

Lemma find_other_update_first (q : A -> bool) (l : list A) :
  (forall y, p y = true -> q y = false /\ q (f y) = false) ->
  find q (update_first p f l) = find q l.
Proof.
  intros H. induction l as [|y l IH]; simpl; [reflexivity|].
  destruct (p y) eqn:Hy.
  - destruct (H y Hy) as [H1 H2]. simpl. rewrite H1, H2. reflexivity.
  - simpl. rewrite IH. reflexivity.
Qed.

Lemma length_update_first (l : list A) :
  List.length (update_first p f l) = List.length l.
Proof.
  induction l as [|y l IH]; simpl; [reflexivity|].
  destruct (p y); simpl; [reflexivity|]. rewrite IH. reflexivity.
Qed.

End UpdateFirst.

Lemma stored_id (db : DB) (user_id : string) (user : User.t) :
  stored db user_id user -> User.id user = user_id.
Proof.
  unfold stored. intros H. apply find_some in H. destruct H as [_ H].
  apply String.eqb_eq. exact H.
Qed.



(** ** Workout plans *)

(** C7: two calls of GET /workouts, on any stores and for any stored users
    whose [gym_attendance] is the same, return the same plan; the plan is
    the gym plan or the home plan by that flag alone, and a call changes
    nothing in the store. *)
Theorem workouts_depend_on_gym_attendance_only (db1 db2 : DB)
    (id1 id2 : string) (user1 user2 : User.t) :
  stored db1 id1 user1 ->
  stored db2 id2 user2 ->
  User.gym_attendance user1 = User.gym_attendance user2 ->
  exists plan,
    get_workouts id1 db1 = (Ok plan, db1) /\
    get_workouts id2 db2 = (Ok plan, db2) /\
    plan = (if User.gym_attendance user1 then gym_workouts else home_workouts).
Proof.
  intros H1 H2 Hg.
  exists (if User.gym_attendance user1 then gym_workouts else home_workouts).
  unfold get_workouts, bind, users_find_one, ret.
  unfold stored in H1, H2. rewrite H1, H2, Hg. repeat split.
Qed.

Lemma workouts_of_two_gym_goers :
  exists plan,
    get_workouts "u1" (db_with (profile 70 175)) = (Ok plan, db_with (profile 70 175)) /\
    get_workouts "u1" (db_with (profile 95 160)) = (Ok plan, db_with (profile 95 160)) /\
    plan = gym_workouts.
Proof.
  exact (workouts_depend_on_gym_attendance_only
           (db_with (profile 70 175)) (db_with (profile 95 160)) "u1" "u1"
           (User.mk "u1" "Ana" 30 70 175 "female" true None (IsoText noon))
           (User.mk "u1" "Ana" 30 95 160 "female" true None (IsoText noon))
           eq_refl eq_refl eq_refl).
Defined.

(** ** Motivational messages *)

(** C9: the pool has exactly ten messages, and whatever index below ten the
    random choice draws, GET /motivation returns a message of the pool and
    leaves the store as it was. *)
Theorem motivation_is_drawn_from_the_pool (db : DB) (randbelow : nat) :
  (randbelow < List.length messages)%nat ->
  List.length messages = 10%nat /\
  exists m,
    get_motivation randbelow db = (Ok (mk_motivation m), db) /\
    In m messages.
Proof.
  intros H. split; [reflexivity|].
  destruct (nth_error messages randbelow) as [m|] eqn:E.
  - exists m. split.
    + unfold get_motivation, bind, lift, choice, ret. rewrite E. reflexivity.
    + apply nth_error_In with randbelow. exact E.
  - apply nth_error_None in E. lia.
Qed.

Lemma motivation_for_draw_3 :
  List.length messages = 10%nat /\
  exists m,
    get_motivation 3 empty_db = (Ok (mk_motivation m), empty_db) /\
    In m messages.
Proof.
  apply (motivation_is_drawn_from_the_pool empty_db 3).
  vm_compute. lia.
Defined.

(** ** Reading logs *)

Lemma length_insert_by_date (x : ProgressLog.t) (l : list ProgressLog.t) :
  List.length (insert_by_date x l) = S (List.length l).
Proof.
  induction l as [|y l IH]; simpl; [reflexivity|].
  destruct (String.leb _ _); simpl; [reflexivity|]. rewrite IH. reflexivity.
Qed.

Lemma length_sort_by_date (l : list ProgressLog.t) :
  List.length (sort_by_date l) = List.length l.
Proof.
  induction l as [|x l IH]; simpl; [reflexivity|].
  rewrite length_insert_by_date, IH. reflexivity.
Qed.

(** C10: GET /water/{user_id} and GET /progress/{user_id} return the first
    1000 documents that match their query (for progress, first by ascending
    date), never more; with more than 1000 matches the answer has exactly
    1000 entries and is still a normal return. *)
Theorem log_reads_return_at_most_1000 (db : DB) (now : datetime)
    (user_id : string) (date : option string) :
  exists water progress,
    get_water_logs now user_id date db = (Ok water, db) /\
    water = map parse_water_timestamp
              (firstn 1000 (filter (water_query user_id (query_date now date))
                              (water_logs db))) /\
    List.length water =
      Nat.min 1000 (List.length (filter (water_query user_id (query_date now date))
                                   (water_logs db))) /\
    get_progress user_id db = (Ok progress, db) /\
    progress = map parse_progress_timestamp
                 (firstn 1000 (sort_by_date (filter (progress_query user_id)
                                               (progress_logs db)))) /\
    List.length progress =
      Nat.min 1000 (List.length (filter (progress_query user_id) (progress_logs db))) /\
    (List.length water <= 1000)%nat /\
    (List.length progress <= 1000)%nat.
Proof.
  eexists. eexists.
  split; [reflexivity|]. split; [reflexivity|].
  split; [rewrite length_map, length_firstn; reflexivity|].
  split; [reflexivity|]. split; [reflexivity|].
  assert (forall A (l : list A), (List.length (firstn 1000 l) <= 1000)%nat) as Hle.
  { intros A l. rewrite length_firstn. apply Nat.le_min_l. }
  split; [rewrite length_map, length_firstn, length_sort_by_date; reflexivity|].
  split; rewrite length_map; apply Hle.
Qed.

(** ** Logging water *)

Lemma filter_snoc {A : Type} (p : A -> bool) (l : list A) (x : A) :
  p x = true -> filter p (l ++ [x]) = filter p l ++ [x].
Proof. intros H. rewrite filter_app. simpl. rewrite H. reflexivity. Qed.

(** C8, as amended: on a store where at most 998 water logs match the user
    and today's date, two POST /water for that user followed, on the same
    server day, by GET /water/{user_id} without a date return the entries
    that matched before followed by the two entries the posts created, two
    more than a read before the posts. *)
Theorem two_posts_then_read (db : DB) (user_id : string) (amount1 amount2 : float)
    (now1 now1' now2 now2' now3 : datetime) (uuid1 uuid2 : string) :
  strftime_Ymd now1 = strftime_Ymd now3 ->
  strftime_Ymd now2 = strftime_Ymd now3 ->
  (List.length (filter (water_query user_id (strftime_Ymd now3)) (water_logs db)) + 2
   <= 1000)%nat ->
  exists before log1 db1 log2 db2,
    get_water_logs now3 user_id None db = (Ok before, db) /\
    log_water now1 uuid1 now1' (WaterLogCreate.mk user_id amount1) db = (Ok log1, db1) /\
    log_water now2 uuid2 now2' (WaterLogCreate.mk user_id amount2) db1 = (Ok log2, db2) /\
    get_water_logs now3 user_id None db2 = (Ok (before ++ [log1; log2]), db2) /\
    WaterLog.date log1 = strftime_Ymd now3 /\
    WaterLog.date log2 = strftime_Ymd now3 /\
    water_logs db2 =
      water_logs db
      ++ [WaterLog.mk uuid1 user_id amount1 (strftime_Ymd now3) (IsoText now1');
          WaterLog.mk uuid2 user_id amount2 (strftime_Ymd now3) (IsoText now2')].
Proof.
  intros E1 E2 Hlen.
  set (today := strftime_Ymd now3) in *.
  set (q := water_query user_id today) in *.
  set (doc1 := WaterLog.mk uuid1 user_id amount1 today (IsoText now1')).
  set (doc2 := WaterLog.mk uuid2 user_id amount2 today (IsoText now2')).
  assert (Hq1 : q doc1 = true).
  { unfold q, water_query, doc1. cbn [WaterLog.user_id WaterLog.date].
    rewrite !String.eqb_refl. reflexivity. }
  assert (Hq2 : q doc2 = true).
  { unfold q, water_query, doc2. cbn [WaterLog.user_id WaterLog.date].
    rewrite !String.eqb_refl. reflexivity. }
  exists (map parse_water_timestamp (firstn 1000 (filter q (water_logs db)))).
  exists (WaterLog.mk uuid1 user_id amount1 today (DateTime now1')).
  exists (mk_db (users db) (water_logs db ++ [doc1]) (progress_logs db)).
  exists (WaterLog.mk uuid2 user_id amount2 today (DateTime now2')).
  exists (mk_db (users db) ((water_logs db ++ [doc1]) ++ [doc2]) (progress_logs db)).
  split; [reflexivity|].
  split.
  { unfold log_water, bind, water_logs_insert_one, ret. rewrite E1. reflexivity. }
  split.
  { unfold log_water, bind, water_logs_insert_one, ret. rewrite E2. reflexivity. }
  split.
  { unfold get_water_logs, bind, water_logs_find, ret, query_date.
    cbn [water_logs]. fold today. fold q.
    rewrite !filter_snoc by assumption.
    rewrite !firstn_all2.
    - rewrite <- app_assoc, map_app. reflexivity.
    - lia.
    - rewrite !length_app. cbn [List.length]. lia. }
  split; [reflexivity|]. split; [reflexivity|].
  cbn [water_logs]. rewrite <- app_assoc. reflexivity.
Qed.

Lemma two_posts_then_read_on_empty_store :
  exists before log1 db1 log2 db2,
    get_water_logs noon "u1" None empty_db = (Ok before, empty_db) /\
    log_water noon "w1" noon (WaterLogCreate.mk "u1" 200) empty_db = (Ok log1, db1) /\
    log_water noon "w2" noon (WaterLogCreate.mk "u1" 300) db1 = (Ok log2, db2) /\
    get_water_logs noon "u1" None db2 = (Ok (before ++ [log1; log2]), db2) /\
    WaterLog.date log1 = "2024-05-17" /\
    WaterLog.date log2 = "2024-05-17".
Proof.
  destruct (two_posts_then_read empty_db "u1" 200 300 noon noon noon noon noon "w1" "w2"
              eq_refl eq_refl)
    as (before & log1 & db1 & log2 & db2 & H1 & H2 & H3 & H4 & H5 & H6 & _).
  - vm_compute. lia.
  - exists before, log1, db1, log2, db2. repeat split; assumption.
Defined.

(** C8, as stated, fails: on the store of a user who already logged water
    1000 times today, two more posts are stored (1002 documents), yet the
    read after them returns the same 1000 entries as the read before them,
    and neither of the two new entries. *)
Lemma two_posts_unseen_on_a_full_day :
  exists before log1 db1 log2 db2 after,
    get_water_logs noon "u1" None full_day_db = (Ok before, full_day_db) /\
    log_water noon "w1000" noon (WaterLogCreate.mk "u1" 200) full_day_db = (Ok log1, db1) /\
    log_water noon "w1001" noon (WaterLogCreate.mk "u1" 300) db1 = (Ok log2, db2) /\
    get_water_logs noon "u1" None db2 = (Ok after, db2) /\
    List.length (water_logs db2) = 1002%nat /\
    List.length before = 1000%nat /\
    after = before /\
    List.length after <> (List.length before + 2)%nat /\
    (forall d, In d after -> WaterLog.id d <> WaterLog.id log1) /\
    (forall d, In d after -> WaterLog.id d <> WaterLog.id log2).
Proof.
  eexists. eexists. eexists. eexists. eexists. eexists.
  split; [reflexivity|]. split; [reflexivity|].
  split; [reflexivity|]. split; [reflexivity|].
  split; [vm_compute; reflexivity|].
  assert (L : forall a b : nat, a = 1000%nat -> b = 1000%nat -> a <> (b + 2)%nat)
    by (intros; lia).
  split; [vm_compute; reflexivity|].
  split; [vm_compute; reflexivity|].
  split; [apply L; vm_compute; reflexivity|].
  split; intros d Hd Eid;
    match type of Hd with
    | In d ?l =>
        assert (F : forallb (fun d => negb (WaterLog.id d =? "w1000")%string
                                      && negb (WaterLog.id d =? "w1001")%string) l = true)
          by (vm_compute; reflexivity);
        apply (proj1 (forallb_forall _ _) F) in Hd
    end;
    cbn [WaterLog.id] in Eid; rewrite Eid in Hd; discriminate Hd.
Qed.

(** ** Further facts about the model *)

(** [round] on values whose CPython results are well known: ties go to the
    even neighbour of the exact binary value, not of the decimal literal. *)
Example round_known_values :
  PyFloat.round 2.675 2 = 2.67%float /\
  PyFloat.round 2.5 0 = 2%float /\
  PyFloat.round 0.125 2 = 0.12%float /\
  PyFloat.round 22.857142857142858 1 = 22.9%float /\
  PyFloat.round (-0.01) 1 = neg_zero /\
  PyFloat.round infinity 1 = infinity.
Proof. repeat split; reflexivity. Qed.

(** What the chain and the arithmetic do outside the amended domain of C2. *)
Example bmi_outside_the_domain :
  classify nan = ("Obesidade", "#EF4444") /\
  PyFloat.pow2 PyFloat.rounded_square (1e160 / 100) = Raise OverflowError /\
  PyFloat.pow2 PyFloat.rounded_square (1e-160 / 100) = Ok 0%float /\
  PyFloat.truediv 70 0 = Raise ZeroDivisionError.
Proof. repeat split; reflexivity. Qed.

(** The integer [round] picks is a nearest one: it is at most half a unit
    away from the exact quotient. *)
Lemma round_half_even_is_nearest (num den : Z) :
  0 < den ->
  2 * Z.abs (PyFloat.round_half_even num den * den - num) <= den.
Proof.
  intros Hden. unfold PyFloat.round_half_even.
  pose proof (Z.div_mod num den ltac:(lia)) as Hdm.
  pose proof (Z.mod_pos_bound num den Hden) as Hb.
  destruct (Z.compare_spec (2 * (num mod den)) den) as [E|E|E];
    [destruct (Z.even (num / den))| |]; nia.
Qed.

Lemma round_half_even_is_nearest_at_a_tie :
  PyFloat.round_half_even 125 10 = 12 /\
  2 * Z.abs (PyFloat.round_half_even 125 10 * 10 - 125) <= 10.
Proof.
  split; [reflexivity|].
  apply (round_half_even_is_nearest 125 10). reflexivity.
Defined.

Lemma find_snoc_new {A : Type} (p : A -> bool) (l : list A) (x : A) :
  find p l = None -> p x = true -> find p (l ++ [x]) = Some x.
Proof.
  induction l as [|y l IH]; simpl; intros Hn Hx.
  - rewrite Hx. reflexivity.
  - destruct (p y); [discriminate|]. apply IH; assumption.
Qed.

(** A profile created under an id the store does not know yet: POST /user
    appends exactly one document to users, the submitted profile with that
    id and the creation time as text, leaves the logs as they were, and
    GET /user/{id} reads back the object POST /user returned. *)
Lemma created_user_is_read_back (db : DB) (uuid4 : string) (now : datetime)
    (user_input : UserCreate.t) :
  absent db uuid4 ->
  exists user db',
    create_user uuid4 now user_input db = (Ok user, db') /\
    User.id user = uuid4 /\
    User.weight user = UserCreate.weight user_input /\
    User.height user = UserCreate.height user_input /\
    get_user uuid4 db' = (Ok user, db') /\
    water_logs db' = water_logs db /\
    progress_logs db' = progress_logs db /\
    users db' =
      users db ++
      [User.mk uuid4 (UserCreate.name user_input) (UserCreate.age user_input)
         (UserCreate.weight user_input) (UserCreate.height user_input)
         (UserCreate.sex user_input) (UserCreate.gym_attendance user_input)
         (UserCreate.goal_weight user_input) (IsoText now)] /\
    List.length (users db') = S (List.length (users db)).
Proof.
  intros Ha. apply absent_find_none in Ha.
  eexists. eexists. split; [reflexivity|].
  cbn [User.id User.weight User.height water_logs progress_logs users].
  repeat (split; [reflexivity|]).
  split; [|split; [reflexivity|split; [reflexivity|split; [reflexivity|]]]];
    [|rewrite length_app; simpl; lia].
  unfold get_user, bind, users_find_one, ret. cbn [users].
  rewrite (find_snoc_new _ _ _ Ha); [reflexivity|].
  cbn [User.id]. apply String.eqb_refl.
Qed.

Lemma created_user_is_read_back_on_empty_store :
  exists user db',
    create_user "u1" noon (profile 70 175) empty_db = (Ok user, db') /\
    get_user "u1" db' = (Ok user, db').
Proof.
  destruct (created_user_is_read_back empty_db "u1" noon (profile 70 175))
    as (user & db' & H1 & _ & _ & _ & H2 & _).
  - intros d [].
  - exists user, db'. split; assumption.
Defined.

(** ** Progress is read in date order *)

Lemma ascending_insert_by_date (x : ProgressLog.t) (l : list ProgressLog.t) :
  ascending l -> ascending (insert_by_date x l).
Proof.
  induction l as [|y l IH]; intros Hl; [simpl; auto|].
  cbn [insert_by_date].
  destruct (String.leb (ProgressLog.date x) (ProgressLog.date y)) eqn:E.
  - split; [exact E|exact Hl].
  - destruct Hl as [Hy Hl]. specialize (IH Hl).
    assert (Hyx : String.leb (ProgressLog.date y) (ProgressLog.date x) = true).
    { destruct (String.leb_total (ProgressLog.date x) (ProgressLog.date y)); congruence. }
    destruct l as [|z l]; [simpl; auto|].
    cbn [insert_by_date] in *.
    destruct (String.leb (ProgressLog.date x) (ProgressLog.date z)); split; auto.
Qed.

Lemma ascending_sort_by_date (l : list ProgressLog.t) : ascending (sort_by_date l).
Proof.
  induction l as [|x l IH]; simpl; [exact I|].
  apply ascending_insert_by_date, IH.
Qed.

Lemma ascending_firstn (n : nat) (l : list ProgressLog.t) :
  ascending l -> ascending (firstn n l).
Proof.
  revert l. induction n as [|n IH]; intros [|x l] Hl; simpl; auto.
  destruct Hl as [Hx Hl]. split; [|apply IH, Hl].
  destruct n; [simpl; auto|]. destruct l; simpl; auto.
Qed.

Lemma ascending_parsed (l : list ProgressLog.t) :
  ascending l -> ascending (map parse_progress_timestamp l).
Proof.
  induction l as [|x l IH]; simpl; auto.
  intros [Hx Hl]. split; [|apply IH, Hl].
  destruct l; simpl; auto.
Qed.

Lemma In_firstn {A : Type} (n : nat) (l : list A) (x : A) :
  In x (firstn n l) -> In x l.
Proof.
  intros H. rewrite <- (firstn_skipn n l). apply in_or_app. left. exact H.
Qed.

(** GET /progress/{user_id} returns, leaving the store as it was, logs of
    that user only, in ascending order of their date. *)
Lemma progress_is_read_in_date_order (db : DB) (user_id : string) :
  exists logs,
    get_progress user_id db = (Ok logs, db) /\
    ascending logs /\
    (forall log, In log logs -> ProgressLog.user_id log = user_id).
Proof.
  eexists. split; [reflexivity|]. split.
  - apply ascending_parsed, ascending_firstn, ascending_sort_by_date.
  - intros log Hin. apply in_map_iff in Hin. destruct Hin as (d & <- & Hd).
    apply In_firstn in Hd.
    assert (Hs : forall l y, In y (sort_by_date l) -> In y l).
    { induction l as [|x l IH]; simpl; [auto|]. intros y Hy.
      assert (Hi : forall l', In y (insert_by_date x l') -> y = x \/ In y l').
      { induction l' as [|z l' IH']; simpl; [intuition|].
        destruct (String.leb _ _); simpl; intuition. }
      destruct (Hi _ Hy); [left; congruence|right; auto]. }
    apply Hs in Hd. apply filter_In in Hd. destruct Hd as [_ Hq].
    apply String.eqb_eq in Hq. exact Hq.
Qed.

(** ** More on profiles *)

Lemma find_snoc {A : Type} (p : A -> bool) (l : list A) (x : A) :
  find p (l ++ [x]) =
    match find p l with
    | Some y => Some y
    | None => if p x then Some x else None
    end.
Proof.
  induction l as [|y l IH]; simpl; [reflexivity|].
  destruct (p y); [reflexivity|exact IH].
Qed.

Lemma update_first_twice {A : Type} (p : A -> bool) (f : A -> A) (l : list A) :
  (forall x, p x = true -> p (f x) = true) ->
  (forall x, p x = true -> f (f x) = f x) ->
  update_first p f (update_first p f l) = update_first p f l.
Proof.
  intros Hp Hf. induction l as [|x l IH]; simpl; [reflexivity|].
  destruct (p x) eqn:E; simpl.
  - rewrite (Hp x E), (Hf x E). reflexivity.
  - rewrite E, IH. reflexivity.
Qed.

Lemma update_user_stored (db : DB) (user_id : string) (body : UserCreate.t)
    (existing : User.t) :
  stored db user_id existing ->
  update_user user_id body db =
    (Ok (parse_created_at (set_fields body existing)),
     mk_db (update_first (fun d => (User.id d =? user_id)%string)
              (set_fields body) (users db))
           (water_logs db) (progress_logs db)).
Proof.
  intros Hs. pose proof (stored_id _ _ _ Hs) as Hid.
  unfold update_user, bind, users_find_one, users_update_one, ret.
  unfold stored in Hs. rewrite Hs. cbn [users].
  rewrite (find_update_first _ _ _ _ Hs); [reflexivity|].
  simpl. apply String.eqb_eq. exact Hid.
Qed.

Lemma update_user_absent (db : DB) (user_id : string) (body : UserCreate.t) :
  find (fun d => (User.id d =? user_id)%string) (users db) = None ->
  update_user user_id body db = (Raise (HTTPException 404 "User not found"), db).
Proof.
  intros H. unfold update_user, bind, users_find_one, not_found, raise.
  rewrite H. reflexivity.
Qed.

(** PUT /user/{id} for an id no stored user carries raises the 404
    exception and writes nothing: no profile is created by an update. *)
Lemma update_of_unknown_user_is_refused (db : DB) (user_id : string)
    (body : UserCreate.t) :
  absent db user_id ->
  update_user user_id body db = (Raise (HTTPException 404 "User not found"), db).
Proof. intros H. apply update_user_absent, absent_find_none, H. Qed.

Lemma update_of_unknown_user_is_refused_after_signup :
  update_user "u2" (profile 68 175) (db_with (profile 70 175)) =
    (Raise (HTTPException 404 "User not found"), db_with (profile 70 175)).
Proof.
  apply (update_of_unknown_user_is_refused (db_with (profile 70 175)) "u2").
  intros d [<- | []]. discriminate.
Defined.

(** PUT /user/{id} is idempotent: sending the same update again, on the
    store the first one left, gives the same answer and the same store,
    whether the user exists or not. *)
Lemma update_user_twice_is_once (db : DB) (user_id : string) (body : UserCreate.t) :
  update_user user_id body (snd (update_user user_id body db)) =
  update_user user_id body db.
Proof.
  destruct (find (fun d => (User.id d =? user_id)%string) (users db))
    as [existing|] eqn:E.
  - pose proof (stored_id db user_id existing E) as Hid.
    rewrite (update_user_stored db user_id body existing E). cbn [snd].
    rewrite (update_user_stored _ user_id body (set_fields body existing)).
    + cbn [users water_logs progress_logs]. rewrite update_first_twice.
      * reflexivity.
      * intros x Hx. exact Hx.
      * intros x _. reflexivity.
    + unfold stored. cbn [users]. apply find_update_first; [exact E|].
      simpl. apply String.eqb_eq. exact Hid.
  - rewrite (update_user_absent db user_id body E). cbn [snd].
    apply update_user_absent, E.
Qed.

(** After a successful PUT /user/{id}, GET /user/{id} returns the document
    the update returned. *)
Lemma updated_user_is_read_back (db : DB) (user_id : string) (body : UserCreate.t)
    (existing : User.t) :
  stored db user_id existing ->
  exists updated db',
    update_user user_id body db = (Ok updated, db') /\
    get_user user_id db' = (Ok updated, db') /\
    User.weight updated = UserCreate.weight body /\
    User.height updated = UserCreate.height body.
Proof.
  intros Hs. pose proof (stored_id _ _ _ Hs) as Hid.
  eexists. eexists. split; [apply (update_user_stored _ _ _ _ Hs)|].
  split; [|split; reflexivity].
  unfold get_user, bind, users_find_one, ret. cbn [users].
  rewrite (find_update_first _ _ _ _ Hs); [reflexivity|].
  simpl. apply String.eqb_eq. exact Hid.
Qed.

Lemma updated_user_is_read_back_after_signup :
  exists updated db',
    update_user "u1" (profile 68 175) (db_with (profile 70 175)) = (Ok updated, db') /\
    get_user "u1" db' = (Ok updated, db') /\
    User.weight updated = 68%float.
Proof.
  destruct (updated_user_is_read_back (db_with (profile 70 175)) "u1" (profile 68 175)
              (User.mk "u1" "Ana" 30 70 175 "female" true None (IsoText noon)) eq_refl)
    as (updated & db' & H1 & H2 & H3 & _).
  exists updated, db'. repeat split; assumption.
Defined.

(** Creation is not idempotent: the same body posted twice, under two
    different fresh ids, gives two profiles, each read back under its own
    id, equal in every submitted field. *)
Lemma two_signups_make_two_users (db : DB) (id1 id2 : string) (now1 now2 : datetime)
    (body : UserCreate.t) :
  absent db id1 -> absent db id2 -> id1 <> id2 ->
  exists user1 db1 user2 db2,
    create_user id1 now1 body db = (Ok user1, db1) /\
    create_user id2 now2 body db1 = (Ok user2, db2) /\
    get_user id1 db2 = (Ok user1, db2) /\
    get_user id2 db2 = (Ok user2, db2) /\
    User.id user1 <> User.id user2 /\
    set_fields body user1 = user1 /\
    set_fields body user2 = user2 /\
    List.length (users db2) = S (S (List.length (users db))).
Proof.
  intros A1 A2 Hne.
  apply absent_find_none in A1. apply absent_find_none in A2.
  eexists. eexists. eexists. eexists.
  split; [reflexivity|]. split; [reflexivity|].
  split.
  { unfold get_user, bind, users_find_one, ret. cbn [users].
    rewrite !find_snoc, A1. cbn [User.id]. rewrite String.eqb_refl. reflexivity. }
  split.
  { unfold get_user, bind, users_find_one, ret. cbn [users].
    rewrite !find_snoc, A2. cbn [User.id].
    destruct (String.eqb_spec id1 id2) as [E|_]; [contradiction|].
    rewrite String.eqb_refl. reflexivity. }
  split; [exact Hne|]. split; [reflexivity|]. split; [reflexivity|].
  cbn [users]. rewrite !length_app. simpl. lia.
Qed.

Lemma two_signups_make_two_users_on_empty_store :
  exists user1 db1 user2 db2,
    create_user "u1" noon (profile 70 175) empty_db = (Ok user1, db1) /\
    create_user "u2" noon (profile 70 175) db1 = (Ok user2, db2) /\
    get_user "u1" db2 = (Ok user1, db2) /\
    get_user "u2" db2 = (Ok user2, db2).
Proof.
  destruct (two_signups_make_two_users empty_db "u1" "u2" noon noon (profile 70 175))
    as (user1 & db1 & user2 & db2 & H1 & H2 & H3 & H4 & _).
  - intros d [].
  - intros d [].
  - discriminate.
  - exists user1, db1, user2, db2. repeat split; assumption.
Defined.

(** Nothing checks that a new id is free: a profile created under an id
    that is already stored is appended, but every read by that id keeps
    answering with the earlier profile. *)
Lemma signup_under_a_taken_id_is_shadowed (db : DB) (user_id : string)
    (now : datetime) (body : UserCreate.t) (old : User.t) :
  stored db user_id old ->
  exists new db',
    create_user user_id now body db = (Ok new, db') /\
    stored db' user_id old /\
    get_user user_id db' = (Ok (parse_created_at old), db') /\
    List.length (users db') = S (List.length (users db)).
Proof.
  intros Hs.
  set (db' := mk_db (users db ++
                       [User.mk user_id (UserCreate.name body) (UserCreate.age body)
                          (UserCreate.weight body) (UserCreate.height body)
                          (UserCreate.sex body) (UserCreate.gym_attendance body)
                          (UserCreate.goal_weight body) (IsoText now)])
                (water_logs db) (progress_logs db)).
  exists (User.mk user_id (UserCreate.name body) (UserCreate.age body)
            (UserCreate.weight body) (UserCreate.height body)
            (UserCreate.sex body) (UserCreate.gym_attendance body)
            (UserCreate.goal_weight body) (DateTime now)), db'.
  split; [reflexivity|].
  assert (H : stored db' user_id old).
  { unfold stored in *. unfold db'. cbn [users]. rewrite find_snoc, Hs. reflexivity. }
  split; [exact H|]. split.
  - unfold get_user, bind, users_find_one, ret. unfold stored in H. rewrite H.
    reflexivity.
  - unfold db'. cbn [users]. rewrite length_app. simpl. lia.
Qed.

Lemma signup_under_a_taken_id_is_shadowed_after_signup :
  exists new db',
    create_user "u1" noon (profile 95 160) (db_with (profile 70 175)) = (Ok new, db') /\
    User.weight new = 95%float /\
    get_user "u1" db' =
      (Ok (User.mk "u1" "Ana" 30 70 175 "female" true None (DateTime noon)), db').
Proof.
  destruct (signup_under_a_taken_id_is_shadowed (db_with (profile 70 175)) "u1" noon
              (profile 95 160)
              (User.mk "u1" "Ana" 30 70 175 "female" true None (IsoText noon)) eq_refl)
    as (new & db' & H1 & _ & H2 & _).
  exists new, db'. split; [exact H1|]. split; [|exact H2].
  injection H1 as <- _. reflexivity.
Defined.

(** ** More on water logs *)

(** GET /water/{user_id} answers only with stored logs of that user and of
    the queried date (their timestamps read back), and, when at most 1000
    logs match, with every one of them. *)
Lemma water_read_is_sound_and_complete (db : DB) (now : datetime)
    (user_id : string) (date : option string) :
  exists logs,
    get_water_logs now user_id date db = (Ok logs, db) /\
    (forall log, In log logs ->
       WaterLog.user_id log = user_id /\
       WaterLog.date log = query_date now date /\
       exists d, In d (water_logs db) /\ log = parse_water_timestamp d) /\
    ((List.length (filter (water_query user_id (query_date now date)) (water_logs db))
      <= 1000)%nat ->
     forall d, In d (water_logs db) ->
       WaterLog.user_id d = user_id -> WaterLog.date d = query_date now date ->
       In (parse_water_timestamp d) logs).
Proof.
  eexists. split; [reflexivity|]. split.
  - intros log Hin. apply in_map_iff in Hin. destruct Hin as (d & <- & Hd).
    apply In_firstn, filter_In in Hd. destruct Hd as [Hd Hq].
    unfold water_query in Hq. apply andb_true_iff in Hq. destruct Hq as [Hu Hdate].
    apply String.eqb_eq in Hu, Hdate.
    split; [exact Hu|]. split; [exact Hdate|]. exists d. split; [exact Hd|reflexivity].
  - intros Hlen d Hd Hu Hdate. apply in_map.
    rewrite firstn_all2 by exact Hlen.
    apply filter_In. split; [exact Hd|].
    unfold water_query. rewrite Hu, Hdate, !String.eqb_refl. reflexivity.
Qed.

(** The [date] parameter of GET /water/{user_id}: an empty string is
    answered like a missing one, with today's logs, and a non-empty date is
    answered without regard to the clock. *)
Lemma water_date_parameter (db : DB) (now now' : datetime) (user_id date : string) :
  date <> "" ->
  get_water_logs now user_id (Some "") db = get_water_logs now user_id None db /\
  get_water_logs now user_id (Some date) db = get_water_logs now' user_id (Some date) db /\
  query_date now (Some date) = date.
Proof.
  intros Hne. split; [reflexivity|].
  assert (E : forall t, query_date t (Some date) = date).
  { intros t. unfold query_date. apply String.eqb_neq in Hne. rewrite Hne. reflexivity. }
  unfold get_water_logs. rewrite !E. repeat split.
Qed.

Lemma water_date_parameter_in_may :
  get_water_logs noon "u1" (Some "") empty_db = get_water_logs noon "u1" None empty_db /\
  get_water_logs noon "u1" (Some "2024-05-16") empty_db =
    get_water_logs (mk_datetime 2025 1 1 0 0 0 0) "u1" (Some "2024-05-16") empty_db /\
  query_date noon (Some "2024-05-16") = "2024-05-16".
Proof.
  apply (water_date_parameter empty_db noon (mk_datetime 2025 1 1 0 0 0 0) "u1"
           "2024-05-16").
  discriminate.
Defined.

(** POST /water never looks the user up: a log for an id no stored user
    carries is stored and answered with, while the goal of that same id is
    still refused with 404. *)
Lemma water_log_needs_no_user (db : DB) (now now' : datetime) (uuid4 user_id : string)
    (amount : float) :
  absent db user_id ->
  exists log db',
    log_water now uuid4 now' (WaterLogCreate.mk user_id amount) db = (Ok log, db') /\
    WaterLog.user_id log = user_id /\
    WaterLog.amount log = amount /\
    water_logs db' =
      water_logs db ++ [WaterLog.mk uuid4 user_id amount (strftime_Ymd now) (IsoText now')] /\
    users db' = users db /\
    calculate_water_goal user_id db' = (Raise (HTTPException 404 "User not found"), db').
Proof.
  intros Ha. apply absent_find_none in Ha.
  eexists. eexists. split; [reflexivity|].
  cbn [WaterLog.user_id WaterLog.amount water_logs users].
  repeat (split; [reflexivity|]).
  unfold calculate_water_goal, bind, users_find_one, not_found, raise. cbn [users].
  rewrite Ha. reflexivity.
Qed.

Lemma water_log_needs_no_user_on_empty_store :
  exists log db',
    log_water noon "w1" noon (WaterLogCreate.mk "ghost" 200) empty_db = (Ok log, db') /\
    List.length (water_logs db') = 1%nat /\
    calculate_water_goal "ghost" db' = (Raise (HTTPException 404 "User not found"), db').
Proof.
  destruct (water_log_needs_no_user empty_db noon noon "w1" "ghost" 200)
    as (log & db' & H1 & _ & _ & H2 & _ & H3).
  - intros d [].
  - exists log, db'. split; [exact H1|]. split; [rewrite H2; reflexivity|exact H3].
Defined.

(** ** The store under any sequence of requests *)

Ltac run_handler :=
  unfold serve, get_user, update_user, get_water_logs, calculate_water_goal, get_meals,
    get_workouts, get_progress, calculate_bmi, get_motivation, create_user, log_water,
    log_progress, bind, lift, ret, raise, not_found, users_find_one, users_insert_one,
    users_update_one, water_logs_find, water_logs_insert_one, progress_logs_find_sorted,
    progress_logs_insert_one;
  repeat match goal with
         | |- context [match ?x with _ => _ end] => destruct x
         end.

Lemma serve_get (r : request) (db : DB) :
  is_get r = true -> serve r db = db.
Proof.
  destruct r; try discriminate; intros _; run_handler; reflexivity.
Qed.

Lemma update_first_none {A : Type} (p : A -> bool) (f : A -> A) (l : list A) :
  find p l = None -> update_first p f l = l.
Proof.
  induction l as [|x l IH]; simpl; [reflexivity|].
  destruct (p x); [discriminate|]. intros H. rewrite (IH H). reflexivity.
Qed.

Lemma In_update_first {A : Type} (p : A -> bool) (f : A -> A) (l : list A) (y : A) :
  In y (update_first p f l) -> In y l \/ exists x, In x l /\ y = f x.
Proof.
  induction l as [|x l IH]; simpl; [tauto|].
  destruct (p x); simpl.
  - intros [<- | H]; [right; exists x; auto|left; auto].
  - intros [<- | H]; [left; auto|].
    destruct (IH H) as [H'|(x' & H1 & H2)]; [left; auto|right; exists x'; auto].
Qed.

Lemma serve_users (r : request) (db : DB) :
  users (serve r db) =
    match r with
    | POST_user uuid4 now body =>
        users db ++
        [User.mk uuid4 (UserCreate.name body) (UserCreate.age body)
           (UserCreate.weight body) (UserCreate.height body) (UserCreate.sex body)
           (UserCreate.gym_attendance body) (UserCreate.goal_weight body) (IsoText now)]
    | PUT_user user_id body =>
        update_first (fun d => (User.id d =? user_id)%string) (set_fields body) (users db)
    | _ => users db
    end.
Proof.
  destruct r; try (rewrite serve_get by reflexivity; reflexivity);
    try reflexivity.
  unfold serve.
  destruct (find (fun d => (User.id d =? user_id)%string) (users db)) as [u|] eqn:E.
  - rewrite (update_user_stored db user_id body u E). reflexivity.
  - rewrite (update_user_absent db user_id body E), (update_first_none _ _ _ E).
    reflexivity.
Qed.

Lemma serve_water_logs (r : request) (db : DB) :
  water_logs (serve r db) = water_logs db ++ written_water r.
Proof.
  destruct r; try (rewrite serve_get by reflexivity; symmetry; apply app_nil_r);
    try reflexivity; try (symmetry; apply app_nil_r).
  unfold serve.
  destruct (find (fun d => (User.id d =? user_id)%string) (users db)) as [u|] eqn:E.
  - rewrite (update_user_stored db user_id body u E). symmetry. apply app_nil_r.
  - rewrite (update_user_absent db user_id body E). symmetry. apply app_nil_r.
Qed.

Lemma serve_progress_logs (r : request) (db : DB) :
  progress_logs (serve r db) = progress_logs db ++ written_progress r.
Proof.
  destruct r; try (rewrite serve_get by reflexivity; symmetry; apply app_nil_r);
    try reflexivity; try (symmetry; apply app_nil_r).
  unfold serve.
  destruct (find (fun d => (User.id d =? user_id)%string) (users db)) as [u|] eqn:E.
  - rewrite (update_user_stored db user_id body u E). symmetry. apply app_nil_r.
  - rewrite (update_user_absent db user_id body E). symmetry. apply app_nil_r.
Qed.

Lemma serve_all_cons (r : request) (rs : list request) (db : DB) :
  serve_all (r :: rs) db = serve_all rs (serve r db).
Proof. reflexivity. Qed.

(** Logs are append-only and immutable: after any sequence of requests each
    log collection is the one before, followed by exactly the documents of
    the POST requests, in the order they were served; and the number of
    profiles grows by the number of POST /user, no request removing one. *)
Lemma collections_only_grow (rs : list request) (db : DB) :
  water_logs (serve_all rs db) = water_logs db ++ flat_map written_water rs /\
  progress_logs (serve_all rs db) = progress_logs db ++ flat_map written_progress rs /\
  List.length (users (serve_all rs db)) =
    (List.length (users db) + List.length (filter is_post_user rs))%nat.
Proof.
  revert db. induction rs as [|r rs IH]; intros db.
  - simpl. rewrite !app_nil_r. repeat split. lia.
  - rewrite serve_all_cons. destruct (IH (serve r db)) as (Hw & Hp & Hu).
    rewrite Hw, Hp, Hu, serve_water_logs, serve_progress_logs, serve_users.
    cbn [flat_map filter]. rewrite <- !app_assoc.
    split; [reflexivity|]. split; [reflexivity|].
    destruct r; cbn [is_post_user List.length]; try lia.
    + rewrite length_app. simpl. lia.
    + rewrite length_update_first. lia.
Qed.

(** There is no deletion path, and ids and creation times are immutable: a
    profile stored under an id is, after any sequence of requests, still
    stored under that id, with the creation time it had. *)
Lemma stored_users_stay_stored (rs : list request) (db : DB) (user_id : string)
    (user : User.t) :
  stored db user_id user ->
  exists user',
    stored (serve_all rs db) user_id user' /\
    User.id user' = User.id user /\
    User.created_at user' = User.created_at user.
Proof.
  revert db user. induction rs as [|r rs IH]; intros db user Hs.
  - exists user. repeat split. exact Hs.
  - rewrite serve_all_cons.
    assert (Hstep : exists u1, stored (serve r db) user_id u1 /\
                               User.id u1 = User.id user /\
                               User.created_at u1 = User.created_at user).
    { pose proof (stored_id _ _ _ Hs) as Hid.
      unfold stored. rewrite serve_users.
      destruct r; try solve [exists user; split; [exact Hs|split; reflexivity]].
      - exists user. rewrite find_snoc. unfold stored in Hs. rewrite Hs. auto.
      - destruct (String.eqb_spec user_id0 user_id) as [->|Hne].
        + exists (set_fields body user). split; [|split; reflexivity].
          apply find_update_first; [exact Hs|]. simpl. apply String.eqb_eq. exact Hid.
        + exists user. split; [|split; reflexivity].
          rewrite find_other_update_first; [exact Hs|].
          intros y Hy. apply String.eqb_eq in Hy. simpl.
          split; apply String.eqb_neq; congruence. }
    destruct Hstep as (u1 & H1 & H2 & H3).
    destruct (IH _ _ H1) as (u' & H4 & H5 & H6).
    exists u'. split; [exact H4|]. split; congruence.
Qed.

Lemma stored_users_stay_stored_through_a_session :
  exists user',
    stored (serve_all [PUT_user "u1" (profile 68 175);
                       POST_user "u1" noon (profile 95 160);
                       POST_water noon "w1" noon (WaterLogCreate.mk "u1" 200);
                       GET_bmi PyFloat.rounded_square "u1"]
              (db_with (profile 70 175))) "u1" user' /\
    User.id user' = "u1" /\
    User.created_at user' = IsoText noon.
Proof.
  exact (stored_users_stay_stored
           [PUT_user "u1" (profile 68 175);
            POST_user "u1" noon (profile 95 160);
            POST_water noon "w1" noon (WaterLogCreate.mk "u1" 200);
            GET_bmi PyFloat.rounded_square "u1"]
           (db_with (profile 70 175)) "u1"
           (User.mk "u1" "Ana" 30 70 175 "female" true None (IsoText noon)) eq_refl).
Defined.

(** Every time field the handlers write is ISO text: a store whose time
    fields are all text (the empty store, for one) keeps that through any
    sequence of requests, so the reads always take their parsing branch. *)
Lemma times_are_stored_as_text (rs : list request) (db : DB) :
  text_times db -> text_times (serve_all rs db).
Proof.
  revert db. induction rs as [|r rs IH]; intros db H; [exact H|].
  rewrite serve_all_cons. apply IH.
  destruct H as (Hu & Hw & Hp). unfold text_times.
  rewrite serve_users, serve_water_logs, serve_progress_logs.
  split; [|split].
  - intros d Hd. destruct r; try (apply Hu; exact Hd).
    + apply in_app_or in Hd. destruct Hd as [Hd|[<-|[]]]; [apply Hu; exact Hd|exact I].
    + apply In_update_first in Hd. destruct Hd as [Hd|(x & Hx & ->)].
      * apply Hu; exact Hd.
      * simpl. apply Hu; exact Hx.
  - intros d Hd. apply in_app_or in Hd. destruct Hd as [Hd|Hd]; [apply Hw; exact Hd|].
    destruct r; simpl in Hd; try contradiction. destruct Hd as [<-|[]]. exact I.
  - intros d Hd. apply in_app_or in Hd. destruct Hd as [Hd|Hd]; [apply Hp; exact Hd|].
    destruct r; simpl in Hd; try contradiction. destruct Hd as [<-|[]]. exact I.
Qed.

Lemma times_are_stored_as_text_from_the_empty_store :
  text_times (serve_all [POST_user "u1" noon (profile 70 175);
                         POST_water noon "w1" noon (WaterLogCreate.mk "u1" 200);
                         PUT_user "u1" (profile 68 175)] empty_db).
Proof.
  apply (times_are_stored_as_text
           [POST_user "u1" noon (profile 70 175);
            POST_water noon "w1" noon (WaterLogCreate.mk "u1" 200);
            PUT_user "u1" (profile 68 175)] empty_db).
  repeat split; intros d [].
Defined.

(** ** More on BMI: heights that are zero or negative *)

Lemma SFeqb_refl (a : spec_float) : a <> S754_nan -> SFeqb a a = true.
Proof.
  unfold SFeqb. destruct a as [s|s| |s m e]; simpl; try congruence.
  - destruct s; reflexivity.
  - intros _. rewrite Z.compare_refl.
    change (Pos.compare_cont Eq m m) with (Pos.compare m m).
    rewrite Pos.compare_refl. destruct s; reflexivity.
Qed.

Lemma is_nan_true (x : float) : is_nan x = true -> x = nan.
Proof.
  unfold is_nan. rewrite eqb_spec. intros H.
  rewrite <- (SF2Prim_Prim2SF x).
  destruct (Prim2SF x) as [s|s| |s m e] eqn:E; [| |reflexivity|];
    rewrite SFeqb_refl in H by discriminate; discriminate H.
Qed.

Lemma eqb_zero_cases (h : float) :
  (h =? 0)%float = true -> h = zero \/ h = neg_zero.
Proof.
  rewrite eqb_spec. change (Prim2SF 0) with (S754_zero false).
  intros H. rewrite <- (SF2Prim_Prim2SF h).
  destruct (Prim2SF h) as [s|s| |s m e]; try discriminate H.
  - destruct s; [right|left]; reflexivity.
  - destruct s; discriminate H.
  - destruct s; discriminate H.
Qed.

(** A stored height of zero, of either sign, makes GET /bmi raise
    [ZeroDivisionError] whatever the weight; the store is left as it was. *)
Lemma bmi_of_zero_height_raises (pow_2 : float -> float) (db : DB) (user_id : string) (user : User.t) :
  stored db user_id user ->
  (User.height user =? 0)%float = true ->
  calculate_bmi pow_2 user_id db = (Raise ZeroDivisionError, db).
Proof.
  intros Hs Hz. unfold calculate_bmi, bind, users_find_one, lift.
  unfold stored in Hs. rewrite Hs.
  destruct (eqb_zero_cases _ Hz) as [-> | ->]; reflexivity.
Qed.

Lemma bmi_of_zero_height_raises_after_signup :
  calculate_bmi PyFloat.rounded_square "u1" (db_with (profile 70 0)) =
    (Raise ZeroDivisionError, db_with (profile 70 0)).
Proof.
  exact (bmi_of_zero_height_raises PyFloat.rounded_square (db_with (profile 70 0)) "u1"
           (User.mk "u1" "Ana" 30 70 0 "female" true None (IsoText noon))
           eq_refl eq_refl).
Defined.

Lemma binary_round_aux_opp (s : bool) (m e : Z) (l : location) :
  SFopp (binary_round_aux prec emax s m e l) = binary_round_aux prec emax (negb s) m e l.
Proof.
  unfold binary_round_aux.
  destruct (shr_fexp prec emax m e l) as [mrs' e'].
  destruct (shr_fexp prec emax _ e' loc_Exact) as [mrs'' e''].
  destruct (shr_m mrs''); simpl; try reflexivity.
  match goal with |- context [if ?b then _ else _] => destruct b end; reflexivity.
Qed.

Lemma SFdiv_opp_l (a : spec_float) (M : positive) (E : Z) :
  SFdiv prec emax (SFopp a) (S754_finite false M E) =
  SFopp (SFdiv prec emax a (S754_finite false M E)).
Proof.
  destruct a as [s|s| |s m e]; simpl; try reflexivity.
  - destruct s; reflexivity.
  - destruct s; reflexivity.
  - destruct (SFdiv_core_binary prec emax (Z.pos m) e (Z.pos M) E) as [[mz ez] lz].
    rewrite binary_round_aux_opp. destruct s; reflexivity.
Qed.

Lemma div_opp_100 (h : float) : (- h / 100)%float = (- (h / 100))%float.
Proof.
  apply Prim2SF_inj. rewrite div_spec, !opp_spec, div_spec.
  change (Prim2SF 100) with (S754_finite false 7036874417766400 (-46)).
  apply SFdiv_opp_l.
Qed.

Lemma abs_opp (y : float) : abs (- y) = abs y.
Proof.
  apply Prim2SF_inj. rewrite !abs_spec, opp_spec.
  destruct (Prim2SF y); reflexivity.
Qed.

Lemma is_nan_opp (y : float) : is_nan (- y) = is_nan y.
Proof.
  unfold is_nan. rewrite !eqb_spec, opp_spec.
  destruct (Prim2SF y) as [s|s| |s m e] eqn:E; try reflexivity;
    rewrite !SFeqb_refl by (destruct s; discriminate); reflexivity.
Qed.

Lemma is_zero_opp (y : float) : is_zero (- y) = is_zero y.
Proof.
  unfold is_zero. rewrite !eqb_spec, opp_spec.
  change (Prim2SF zero) with (S754_zero false).
  destruct (Prim2SF y) as [s|s| |s m e]; try reflexivity; destruct s; reflexivity.
Qed.

Lemma pow2_opp (pow_2 : float -> float) (y : float) :
  PyFloat.pow2 pow_2 (- y) = PyFloat.pow2 pow_2 y.
Proof.
  unfold PyFloat.pow2, is_infinity.
  rewrite is_nan_opp, is_zero_opp, abs_opp.
  destruct (is_nan y) eqn:E; [|reflexivity].
  apply is_nan_true in E. rewrite E. reflexivity.
Qed.

(** A negative height is not refused: GET /bmi answers (or raises) for it
    exactly as for the height of opposite sign. *)
Lemma bmi_ignores_the_sign_of_height (pow_2 : float -> float) (db db' : DB) (user_id : string)
    (user user' : User.t) :
  stored db user_id user ->
  stored db' user_id user' ->
  User.weight user' = User.weight user ->
  User.height user' = (- User.height user)%float ->
  fst (calculate_bmi pow_2 user_id db') = fst (calculate_bmi pow_2 user_id db).
Proof.
  intros Hs Hs' Hw Hh. unfold calculate_bmi, bind, users_find_one, lift, ret.
  unfold stored in Hs, Hs'. rewrite Hs, Hs', Hw, Hh.
  rewrite !(truediv_ok _ 100 eq_refl), div_opp_100, pow2_opp.
  destruct (PyFloat.pow2 pow_2 (User.height user / 100)) as [sq|e]; [|reflexivity].
  destruct (PyFloat.truediv (User.weight user) sq) as [x|e]; [|reflexivity].
  destruct (classify x). reflexivity.
Qed.

Lemma bmi_ignores_the_sign_of_height_175 :
  fst (calculate_bmi PyFloat.rounded_square "u1" (db_with (profile 70 (-175)))) =
  fst (calculate_bmi PyFloat.rounded_square "u1" (db_with (profile 70 175))) /\
  fst (calculate_bmi PyFloat.rounded_square "u1" (db_with (profile 70 (-175)))) =
    Ok (mk_bmi "u1" 22.9 "Peso normal" "#10B981").
Proof.
  split; [|reflexivity].
  exact (bmi_ignores_the_sign_of_height PyFloat.rounded_square
           (db_with (profile 70 175)) (db_with (profile 70 (-175))) "u1"
           (User.mk "u1" "Ana" 30 70 175 "female" true None (IsoText noon))
           (User.mk "u1" "Ana" 30 70 (-175) "female" true None (IsoText noon))
           eq_refl eq_refl eq_refl eq_refl).
Defined.

(** For a stored user GET /bmi has three outcomes only: an answer carrying
    the requested id and one of the four label and colour pairs, a
    [ZeroDivisionError], or an [OverflowError]; never a 404, and the store
    is left as it was. *)
Lemma bmi_outcomes (pow_2 : float -> float) (db : DB) (user_id : string) (user : User.t) :
  stored db user_id user ->
  (exists r,
     calculate_bmi pow_2 user_id db = (Ok r, db) /\
     bmi_user_id r = user_id /\
     In (status r, color r)
        [("Baixo peso", "#3B82F6"); ("Peso normal", "#10B981");
         ("Sobrepeso", "#F59E0B"); ("Obesidade", "#EF4444")]) \/
  calculate_bmi pow_2 user_id db = (Raise ZeroDivisionError, db) \/
  calculate_bmi pow_2 user_id db = (Raise OverflowError, db).
Proof.
  intros Hs. unfold calculate_bmi, bind, users_find_one, lift, ret.
  unfold stored in Hs. rewrite Hs, (truediv_ok _ 100 eq_refl).
  unfold PyFloat.pow2, PyFloat.truediv, classify.
  repeat match goal with
         | |- context [if ?b then _ else _] => destruct b
         end;
    try (right; left; reflexivity); try (right; right; reflexivity);
    left; eexists; (split; [reflexivity|]); (split; [reflexivity|]); simpl; tauto.
Qed.

Lemma bmi_outcomes_after_signup :
  (exists r,
     calculate_bmi PyFloat.rounded_square "u1" (db_with (profile 70 175)) = (Ok r, db_with (profile 70 175)) /\
     bmi_user_id r = "u1" /\
     In (status r, color r)
        [("Baixo peso", "#3B82F6"); ("Peso normal", "#10B981");
         ("Sobrepeso", "#F59E0B"); ("Obesidade", "#EF4444")]) \/
  calculate_bmi PyFloat.rounded_square "u1" (db_with (profile 70 175)) =
    (Raise ZeroDivisionError, db_with (profile 70 175)) \/
  calculate_bmi PyFloat.rounded_square "u1" (db_with (profile 70 175)) =
    (Raise OverflowError, db_with (profile 70 175)).
Proof.
  exact (bmi_outcomes PyFloat.rounded_square (db_with (profile 70 175)) "u1"
           (User.mk "u1" "Ana" 30 70 175 "female" true None (IsoText noon)) eq_refl).
Defined.

(** ** More on motivational messages *)

Lemma messages_are_distinct : NoDup messages.
Proof.
  unfold messages.
  repeat (constructor; [simpl; intros H;
                        repeat (destruct H as [H|H]; [discriminate H|]); exact H|]).
  constructor.
Qed.

(** Every message of the pool can be drawn, and two different draws below
    ten never give the same message: the ten answers are in one-to-one
    correspondence with the ten outcomes of the random choice. *)
Lemma draws_and_messages_correspond (db : DB) :
  (forall m, In m messages ->
     exists i, (i < 10)%nat /\ get_motivation i db = (Ok (mk_motivation m), db)) /\
  (forall i j, (i < 10)%nat -> (j < 10)%nat ->
     get_motivation i db = get_motivation j db -> i = j).
Proof.
  split.
  - intros m Hm. apply In_nth_error in Hm. destruct Hm as (i & Hi).
    exists i. split.
    + change 10%nat with (List.length messages). apply nth_error_Some. congruence.
    + unfold get_motivation, bind, lift, choice, ret. rewrite Hi. reflexivity.
  - intros i j Hi Hj H.
    unfold get_motivation, bind, lift, choice, ret in H.
    destruct (nth_error messages i) as [a|] eqn:Ei;
      [|apply nth_error_None in Ei; simpl in Ei; lia].
    destruct (nth_error messages j) as [b|] eqn:Ej;
      [|apply nth_error_None in Ej; simpl in Ej; lia].
    injection H as H.
    apply (proj1 (NoDup_nth_error messages) messages_are_distinct i j).
    + change (List.length messages) with 10%nat. exact Hi.
    + congruence.
Qed.

(** ** More on progress logs *)

Lemma In_insert_by_date (x y : ProgressLog.t) (l : list ProgressLog.t) :
  In y (insert_by_date x l) <-> y = x \/ In y l.
Proof.
  induction l as [|z l IH]; simpl; [intuition|].
  destruct (String.leb _ _); simpl; [intuition|]. rewrite IH. intuition.
Qed.

Lemma In_sort_by_date (y : ProgressLog.t) (l : list ProgressLog.t) :
  In y (sort_by_date l) <-> In y l.
Proof.
  induction l as [|x l IH]; simpl; [tauto|].
  rewrite In_insert_by_date, IH. intuition.
Qed.

(** A progress log posted for a user with fewer than 1000 logs is among the
    logs GET /progress/{user_id} then returns, which are one more than the
    user had. *)
Lemma logged_progress_is_read_back (db : DB) (now now' : datetime)
    (uuid4 user_id : string) (weight : float) :
  (List.length (filter (progress_query user_id) (progress_logs db)) < 1000)%nat ->
  exists log db' logs,
    log_progress now uuid4 now' (ProgressLogCreate.mk user_id weight) db = (Ok log, db') /\
    ProgressLog.weight log = weight /\
    ProgressLog.date log = strftime_Ymd now /\
    get_progress user_id db' = (Ok logs, db') /\
    In log logs /\
    List.length logs =
      S (List.length (filter (progress_query user_id) (progress_logs db))).
Proof.
  intros Hlen.
  set (doc := ProgressLog.mk uuid4 user_id weight (strftime_Ymd now) (IsoText now')).
  exists (ProgressLog.mk uuid4 user_id weight (strftime_Ymd now) (DateTime now')).
  exists (mk_db (users db) (water_logs db) (progress_logs db ++ [doc])).
  exists (map parse_progress_timestamp
            (firstn 1000 (sort_by_date
                            (filter (progress_query user_id) (progress_logs db ++ [doc]))))).
  split; [reflexivity|]. split; [reflexivity|]. split; [reflexivity|].
  split; [reflexivity|].
  assert (Hq : progress_query user_id doc = true).
  { unfold progress_query, doc. cbn [ProgressLog.user_id]. apply String.eqb_refl. }
  rewrite (filter_snoc _ _ _ Hq).
  rewrite firstn_all2
    by (rewrite length_sort_by_date, length_app; cbn [List.length]; lia).
  split.
  - change (ProgressLog.mk uuid4 user_id weight (strftime_Ymd now) (DateTime now'))
      with (parse_progress_timestamp doc).
    apply in_map, In_sort_by_date, in_or_app. right. left. reflexivity.
  - rewrite length_map, length_sort_by_date, length_app. cbn [List.length]. lia.
Qed.

Lemma logged_progress_is_read_back_on_empty_store :
  exists log db' logs,
    log_progress noon "p1" noon (ProgressLogCreate.mk "u1" 69.5) empty_db = (Ok log, db') /\
    get_progress "u1" db' = (Ok logs, db') /\
    In log logs.
Proof.
  destruct (logged_progress_is_read_back empty_db noon noon "p1" "u1" 69.5)
    as (log & db' & logs & H1 & _ & _ & H2 & H3 & _).
  - vm_compute. lia.
  - exists log, db', logs. repeat split; assumption.
Defined.

Lemma string_compare_trans (s1 : string) :
  forall s2 s3,
    String.compare s1 s2 <> Gt -> String.compare s2 s3 <> Gt ->
    String.compare s1 s3 <> Gt.
Proof.
  induction s1 as [|c1 s1 IH]; intros [|c2 s2] [|c3 s3]; simpl; try congruence.
  unfold Ascii.compare.
  destruct (N.compare_spec (N_of_ascii c1) (N_of_ascii c2)) as [E12|L12|G12];
    destruct (N.compare_spec (N_of_ascii c2) (N_of_ascii c3)) as [E23|L23|G23];
    destruct (N.compare_spec (N_of_ascii c1) (N_of_ascii c3)) as [E13|L13|G13];
    try congruence; try lia.
  apply IH.
Qed.

Lemma string_leb_trans (s1 s2 s3 : string) :
  String.leb s1 s2 = true -> String.leb s2 s3 = true -> String.leb s1 s3 = true.
Proof.
  unfold String.leb. intros H12 H23.
  pose proof (string_compare_trans s1 s2 s3) as H.
  destruct (String.compare s1 s2); destruct (String.compare s2 s3);
    destruct (String.compare s1 s3); try reflexivity; try discriminate;
    exfalso; apply H; congruence.
Qed.

Lemma ascending_tail (x : ProgressLog.t) (l : list ProgressLog.t) :
  ascending (x :: l) -> ascending l.
Proof. intros [_ H]. exact H. Qed.

Lemma ascending_head (x : ProgressLog.t) (l : list ProgressLog.t) :
  ascending (x :: l) ->
  forall y, In y l -> String.leb (ProgressLog.date x) (ProgressLog.date y) = true.
Proof.
  revert x. induction l as [|z l IH]; intros x Hx y Hy; [contradiction|].
  destruct Hx as [Hxz Hl]. destruct Hy as [<-|Hy]; [exact Hxz|].
  apply string_leb_trans with (ProgressLog.date z); [exact Hxz|].
  apply IH; assumption.
Qed.

Lemma ascending_app (l1 l2 : list ProgressLog.t) :
  ascending (l1 ++ l2) ->
  forall x y, In x l1 -> In y l2 ->
    String.leb (ProgressLog.date x) (ProgressLog.date y) = true.
Proof.
  induction l1 as [|z l1 IH]; intros H x y Hx Hy; [contradiction|].
  destruct Hx as [<-|Hx].
  - apply (ascending_head _ _ H). apply in_or_app. right. exact Hy.
  - apply IH; [apply (ascending_tail _ _ H)|exact Hx|exact Hy].
Qed.

(** What the cap of GET /progress/{user_id} leaves out is the latest: the
    user's stored logs split into those returned and those omitted, at most
    1000 are returned, and no omitted log has a date before that of a
    returned one. *)
Lemma progress_cap_keeps_the_earliest_dates (db : DB) (user_id : string) :
  exists kept omitted,
    get_progress user_id db = (Ok (map parse_progress_timestamp kept), db) /\
    (forall d, In d (kept ++ omitted) <->
               In d (progress_logs db) /\ ProgressLog.user_id d = user_id) /\
    List.length (kept ++ omitted) =
      List.length (filter (progress_query user_id) (progress_logs db)) /\
    List.length kept = Nat.min 1000 (List.length (kept ++ omitted)) /\
    (forall x y, In x kept -> In y omitted ->
       String.leb (ProgressLog.date x) (ProgressLog.date y) = true).
Proof.
  set (sorted := sort_by_date (filter (progress_query user_id) (progress_logs db))).
  exists (firstn 1000 sorted), (skipn 1000 sorted).
  split; [reflexivity|]. rewrite firstn_skipn.
  split.
  - intros d. unfold sorted. rewrite In_sort_by_date, filter_In.
    unfold progress_query. rewrite String.eqb_eq. tauto.
  - split; [apply length_sort_by_date|]. split; [apply length_firstn|].
    apply ascending_app. rewrite firstn_skipn. apply ascending_sort_by_date.
Qed.

(** No GET request writes, whatever it answers or raises: the store after a
    sequence of requests is the store after its POST and PUT requests
    alone, and a sequence of GET requests leaves the store as it was. *)
Lemma reads_never_write (rs : list request) (db : DB) :
  serve_all rs db = serve_all (filter (fun r => negb (is_get r)) rs) db /\
  (forallb is_get rs = true -> serve_all rs db = db).
Proof.
  split.
  - revert db. induction rs as [|r rs IH]; intros db; [reflexivity|].
    cbn [filter]. destruct (is_get r) eqn:E; cbn [negb].
    + rewrite serve_all_cons, (serve_get r db E). apply IH.
    + rewrite !serve_all_cons. apply IH.
  - revert db. induction rs as [|r rs IH]; intros db H; [reflexivity|].
    cbn [forallb] in H. apply andb_true_iff in H. destruct H as [Hr Hrs].
    rewrite serve_all_cons, (serve_get r db Hr). apply IH, Hrs.
Qed.

Lemma reads_never_write_in_a_session :
  serve_all [GET_bmi PyFloat.rounded_square "u2"; POST_water noon "w1" noon (WaterLogCreate.mk "u1" 200);
             GET_water noon "u1" None] (db_with (profile 70 175)) =
  serve_all [POST_water noon "w1" noon (WaterLogCreate.mk "u1" 200)]
    (db_with (profile 70 175)) /\
  serve_all [GET_bmi PyFloat.rounded_square "u2"; GET_user "u1"; GET_motivation 3] (db_with (profile 70 175)) =
  db_with (profile 70 175).
Proof.
  split.
  - exact (proj1 (reads_never_write
                    [GET_bmi PyFloat.rounded_square "u2"; POST_water noon "w1" noon (WaterLogCreate.mk "u1" 200);
                     GET_water noon "u1" None] (db_with (profile 70 175)))).
  - exact (proj2 (reads_never_write [GET_bmi PyFloat.rounded_square "u2"; GET_user "u1"; GET_motivation 3]
                    (db_with (profile 70 175))) eq_refl).
Defined.

(** ** More on workout plans *)

(** The plan tells the flag: two stored users get the same plan from
    GET /workouts exactly when their [gym_attendance] is the same. *)
Lemma workouts_tell_gym_attendance (db1 db2 : DB) (id1 id2 : string)
    (user1 user2 : User.t) :
  stored db1 id1 user1 ->
  stored db2 id2 user2 ->
  (fst (get_workouts id1 db1) = fst (get_workouts id2 db2) <->
   User.gym_attendance user1 = User.gym_attendance user2).
Proof.
  intros H1 H2. unfold get_workouts, bind, users_find_one, ret.
  unfold stored in H1, H2. rewrite H1, H2. cbn [fst].
  destruct (User.gym_attendance user1), (User.gym_attendance user2);
    split; intros H; try reflexivity; discriminate H.
Qed.

Lemma workouts_tell_gym_attendance_of_two_users :
  fst (get_workouts "u1" (db_with (profile 70 175))) = Ok gym_workouts /\
  fst (get_workouts "u1" (db_with (UserCreate.mk "Rui" 41 82 180 "male" false None))) =
    Ok home_workouts /\
  fst (get_workouts "u1" (db_with (profile 70 175))) <>
  fst (get_workouts "u1" (db_with (UserCreate.mk "Rui" 41 82 180 "male" false None))).
Proof.
  split; [reflexivity|]. split; [reflexivity|].
  intros H.
  apply (workouts_tell_gym_attendance
           (db_with (profile 70 175))
           (db_with (UserCreate.mk "Rui" 41 82 180 "male" false None)) "u1" "u1"
           (User.mk "u1" "Ana" 30 70 175 "female" true None (IsoText noon))
           (User.mk "u1" "Rui" 41 82 180 "male" false None (IsoText noon))
           eq_refl eq_refl) in H.
  discriminate H.
Defined.

(** ** The server day *)

Lemma digit_mod (a b : Z) : digit a = digit b -> a mod 10 = b mod 10.
Proof.
  unfold digit. intros H. apply (f_equal nat_of_ascii) in H.
  pose proof (Z.mod_pos_bound a 10 eq_refl). pose proof (Z.mod_pos_bound b 10 eq_refl).
  rewrite !nat_ascii_embedding in H by lia. lia.
Qed.

(** Two clock readings (years 1000 to 9999) give the same date string
    exactly when they have the same year, month and day: the "same server
    day" of the water and progress logs is the same UTC calendar day. *)
Lemma same_date_string_same_day (t t' : datetime) :
  1000 <= year t <= 9999 -> 1 <= month t <= 12 -> 1 <= day t <= 31 ->
  1000 <= year t' <= 9999 -> 1 <= month t' <= 12 -> 1 <= day t' <= 31 ->
  (strftime_Ymd t = strftime_Ymd t' <->
   year t = year t' /\ month t = month t' /\ day t = day t').
Proof.
  intros Hy Hm Hd Hy' Hm' Hd'. split.
  - unfold strftime_Ymd, zfill4, zfill2. cbn [String.append].
    intros H. injection H as Y1 Y2 Y3 Y4 M1 M2 D1 D2.
    apply digit_mod in Y1, Y2, Y3, Y4, M1, M2, D1, D2.
    split; [|split].
    + clear M1 M2 D1 D2 Hm Hm' Hd Hd'. Z.to_euclidean_division_equations. lia.
    + clear Y1 Y2 Y3 Y4 D1 D2 Hy Hy' Hd Hd'. Z.to_euclidean_division_equations. lia.
    + clear Y1 Y2 Y3 Y4 M1 M2 Hy Hy' Hm Hm'. Z.to_euclidean_division_equations. lia.
  - intros (Ey & Em & Ed). unfold strftime_Ymd. rewrite Ey, Em, Ed. reflexivity.
Qed.

Lemma same_date_string_same_day_in_may :
  strftime_Ymd noon = strftime_Ymd (mk_datetime 2024 5 17 23 59 59 999999) /\
  strftime_Ymd noon <> strftime_Ymd (mk_datetime 2024 5 18 0 0 0 0).
Proof.
  split.
  - apply (same_date_string_same_day noon (mk_datetime 2024 5 17 23 59 59 999999));
      simpl; lia.
  - intros H.
    apply (same_date_string_same_day noon (mk_datetime 2024 5 18 0 0 0 0)) in H;
      simpl in *; lia.
Defined.
